(** * The Atlas metadata proxy (metadata_service/proxy/atlas_proxy.py)

    A shallow embedding of [AtlasProxy]: the Python dictionaries the proxy
    reads are JSON values, the Atlas client ([self._driver]) is a record of
    response functions, and every proxy method is a computation that
    returns a value or raises, and that emits the driver calls and log
    records it performs. *)

From Stdlib Require Import ZArith String List.
From stdpp Require Import gmap strings list fin_maps.

Set Warnings "-register-all".

(** ** Python values *)

(** The content of the dictionaries decoded from the backend's JSON. *)
Inductive value : Type :=
| VNone
| VBool (b : bool)
| VInt (z : Z)
| VStr (s : string)
| VList (l : list value)
| VDict (d : gmap string value).

(** [bool(v)]. *)
Definition truthy (v : value) : bool :=
  match v with
  | VNone => false
  | VBool b => b
  | VInt z => negb (z =? 0)%Z
  | VStr s => negb (String.eqb s "")
  | VList l => match l with [] => false | _ => true end
  | VDict d => match map_to_list d with [] => false | _ => true end
  end.

(** [a or b], both operands already evaluated. *)
Definition py_or (a b : value) : value := if truthy a then a else b.

(** ** Exceptions *)

(** The exception classes the proxy raises, catches or can meet while it
    walks a decoded entity; [OtherException] stands for every other
    subclass of [Exception] that the driver may raise. *)
Inductive exn_class : Type :=
| NotFoundException
| BadRequest
| KeyError
| AttributeError
| TypeError
| OtherException (cls : string).

Record exn : Type := Exn { exn_cls : exn_class; exn_msg : string }.

Inductive result (A : Type) : Type :=
| Ok (a : A)
| Raise (e : exn).
Arguments Ok {A} a.
Arguments Raise {A} e.

#[global] Instance result_ret : MRet result := λ A, Ok.
#[global] Instance result_bind : MBind result := λ A B f r,
  match r with Ok a => f a | Raise e => Raise e end.

Definition is_ok {A} (r : result A) : bool :=
  match r with Ok _ => true | Raise _ => false end.

Definition raises {A} (r : result A) (c : exn_class) : Prop :=
  ∃ msg, r = Raise (Exn c msg).

(** ** Dictionary and sequence operations of Python *)

(** [d[k]] on a dictionary object, [k] a string. *)
Definition dict_getitem (d : gmap string value) (k : string) : result value :=
  match d !! k with
  | Some v => Ok v
  | None => Raise (Exn KeyError k)
  end.

(** [d.get(k, dflt)] on a dictionary object. *)
Definition dict_get (d : gmap string value) (k : string) (dflt : value) : value :=
  default dflt (d !! k).

(** [v[k]] on any value, [k] a string: only a dictionary can be indexed
    by a string. *)
Definition py_getitem (v : value) (k : string) : result value :=
  match v with
  | VDict d => dict_getitem d k
  | _ => Raise (Exn TypeError "indices must be integers or object is not subscriptable")
  end.

(** [v.get(k)] on any value: only a dictionary has the method. *)
Definition py_get (v : value) (k : string) : result value :=
  match v with
  | VDict d => Ok (dict_get d k VNone)
  | _ => Raise (Exn AttributeError "object has no attribute 'get'")
  end.

(** [v[k] = x] on any value, [k] a string. *)
Definition py_setitem (v : value) (k : string) (x : value) : result value :=
  match v with
  | VDict d => Ok (VDict (<[k := x]> d))
  | _ => Raise (Exn TypeError "object does not support item assignment")
  end.

(** [d[key]] on a dictionary object whose keys are strings, [key] any
    value: a string is looked up, another hashable value is never a key,
    and a list or a dictionary cannot be hashed. *)
Definition dict_getitem_value {A} (d : gmap string A) (key : value) : result A :=
  match key with
  | VStr k => match d !! k with
              | Some v => Ok v
              | None => Raise (Exn KeyError k)
              end
  | VList _ | VDict _ => Raise (Exn TypeError "unhashable type")
  | _ => Raise (Exn KeyError "")
  end.

(** [d.get(key)], same keys. *)
Definition dict_get_value {A} (d : gmap string A) (key : value) : result (option A) :=
  match key with
  | VStr k => Ok (d !! k)
  | VList _ | VDict _ => Raise (Exn TypeError "unhashable type")
  | _ => Ok None
  end.

Definition chars (s : string) : list value :=
  (λ c, VStr (String c EmptyString)) <$> list_ascii_of_string s.

(** The elements a [for] loop over [v] visits. *)
Definition py_iter (v : value) : result (list value) :=
  match v with
  | VList l => Ok l
  | VStr s => Ok (chars s)
  | VDict d => Ok ((λ kv, VStr kv.1) <$> map_to_list d)
  | _ => Raise (Exn TypeError "object is not iterable")
  end.

(** A loop that appends one item per element and stops at the first
    exception. *)
Fixpoint for_each {A B} (f : A → result B) (l : list A) : result (list B) :=
  match l with
  | [] => Ok []
  | x :: l' => y ← f x; ys ← for_each f l'; Ok (y :: ys)
  end.

(** ** Domain model (metadata_service.entity) *)

Record Tag : Type := { tag_name : value; tag_type : string }.

Record User : Type := { email : value }.

Record Column : Type :=
  { col_name : value; col_description : value; col_type : value; sort_order : value }.

Record Table : Type :=
  { database : value;
    cluster : value;
    schema : value;
    name : value;
    tags : list Tag;
    description : value;
    owners : list User;
    columns : list Column;
    last_updated_timestamp : value }.

Record PopularTable : Type :=
  { pt_database : value;
    pt_cluster : value;
    pt_schema : value;
    pt_name : value;
    pt_description : value }.

Record TagDetail : Type := { td_tag_name : value; tag_count : Z }.

(** ** Objects of the Atlas client *)

(** What [entity_guid] returns: the decoded entity and the entities it
    refers to, by guid. *)
Record EntityGuid : Type :=
  { entity : gmap string value;
    referredEntities : gmap string value }.

(** An entity of a search result or of a bulk fetch. *)
Record Entity : Type :=
  { guid : string;
    typeName : value;
    attributes : gmap string value }.

(** A page of entities ([.entities]). *)
Record EntityCollection : Type := { entities : list Entity }.

Record ClassificationDef : Type := { cd_name : value }.
Record TypeDef : Type := { classificationDefs : list ClassificationDef }.

(** ** The driver and the effects of a proxy call *)

(** The requests the proxy sends through [self._driver]. *)
Inductive call : Type :=
| entity_guid_call (id : value)
| entity_bulk_call (guids : list value)
| search_basic_call (params : gmap string value)
| search_basic_create_call (data : gmap string value)
| update_call (obj : EntityGuid) (attribute : option string)
| entity_bulk_classification_create_call (data : gmap string value)
| classifications_delete_call (obj : EntityGuid) (tag : string)
| typedefs_call.

(** What a proxy call leaves behind: the driver calls it made, each with
    the exception it raised if any, and the records written with
    [LOGGER.exception]. *)
Inductive event : Type :=
| Called (c : call) (raised : option exn)
| Logged (msg : string) (ex : exn).

(** The Atlas client. Each method answers from its arguments and from
    everything that happened before, and either returns or raises. *)
Record Driver : Type :=
  { drv_entity_guid : list event → value → result EntityGuid;
    drv_entity_bulk : list event → list value → result (list EntityCollection);
    drv_search_basic : list event → gmap string value → result (list EntityCollection);
    drv_search_basic_create : list event → gmap string value → result EntityCollection;
    drv_update : list event → EntityGuid → option string → result unit;
    drv_entity_bulk_classification_create : list event → gmap string value → result unit;
    drv_classifications_delete : list event → EntityGuid → string → result unit;
    drv_typedefs : list event → result (list TypeDef) }.

(** A computation of the proxy: from the history so far to its outcome
    and the events it adds, oldest first. *)
Definition M (A : Type) : Type := list event → result A * list event.

#[global] Instance M_ret : MRet M := λ A a _, (Ok a, []).
#[global] Instance M_bind : MBind M := λ A B f m h,
  match m h with
  | (Ok a, evs) => let '(r, evs') := f a (h ++ evs) in (r, evs ++ evs')
  | (Raise e, evs) => (Raise e, evs)
  end.

Definition lift {A} (r : result A) : M A := λ _, (r, []).

Definition raise {A} (e : exn) : M A := λ _, (Raise e, []).

Definition raised_of {A} (r : result A) : option exn :=
  match r with Ok _ => None | Raise e => Some e end.

Definition driver_call {A} (c : call) (answer : list event → result A) : M A :=
  λ h, (answer h, [Called c (raised_of (answer h))]).

(** [LOGGER.exception(msg)] inside a handler of [ex]. *)
Definition LOGGER_exception (msg : string) (ex : exn) : M unit :=
  λ _, (Ok (), [Logged msg ex]).

(** [try: body except <classes handled>: handler]. *)
Definition try_except {A} (body : M A) (handled : exn_class → bool)
    (handler : exn → M A) : M A :=
  λ h, match body h with
       | (Ok a, evs) => (Ok a, evs)
       | (Raise e, evs) =>
           if handled (exn_cls e)
           then let '(r, evs') := handler e (h ++ evs) in (r, evs ++ evs')
           else (Raise e, evs)
       end.

(** [except Exception]: every class of the model. *)
Definition except_Exception (c : exn_class) : bool := true.

Definition except_KeyError (c : exn_class) : bool :=
  match c with KeyError => true | _ => false end.

Definition except_BadRequest (c : exn_class) : bool :=
  match c with BadRequest => true | _ => false end.

(** Some driver call among [evs] raised. *)
Definition backend_raised (evs : list event) : Prop :=
  ∃ c e, Called c (Some e) ∈ evs.

(** ** AtlasProxy *)

Record AtlasProxy : Type :=
  { _driver : Driver;
    TABLE_ENTITY : string;
    DB_ATTRIBUTE : string;
    NAME_ATTRIBUTE : string }.

Definition ATTRS_KEY : string := "attributes".
Definition REL_ATTRS_KEY : string := "relationshipAttributes".

Section Proxy.

Variable self : AtlasProxy.

Definition _get_ids_from_basic_search (params : gmap string value) : M (list string) :=
  search_results ← driver_call (search_basic_call params)
                     (λ h, drv_search_basic (_driver self) h params);
  mret (mjoin ((λ result, guid <$> entities result) <$> search_results)).

(** The first loop of [_get_rel_attributes_dict]. *)
Fixpoint rel_attribute_ids (attribute : string) (ents : list Entity) : result (list value) :=
  match ents with
  | [] => Ok []
  | entity :: rest =>
      let attrs := attributes entity in
      rel_id ← py_get (dict_get attrs attribute (VDict ∅)) "guid";
      ids ← rel_attribute_ids attribute rest;
      Ok (if truthy rel_id then rel_id :: ids else ids)
  end.

(** [dict((e.guid, e) for e in ents)]: a later entity replaces an earlier
    one of the same guid. *)
Definition dict_by_guid (ents : list Entity) : gmap string Entity :=
  foldl (λ d rel_entity, <[guid rel_entity := rel_entity]> d) ∅ ents.

(** The second loop of [_get_rel_attributes_dict]: every batch assigns
    [entities_dict] anew. *)
Definition entities_dict_of (collection : list EntityCollection) : gmap string Entity :=
  foldl (λ _ rel_entities, dict_by_guid (entities rel_entities)) ∅ collection.

Definition _get_rel_attributes_dict (ents : list Entity) (attribute : string)
    : M (gmap string Entity) :=
  ids ← lift (rel_attribute_ids attribute ents);
  _rel_attr_collection ← driver_call (entity_bulk_call ids)
                           (λ h, drv_entity_bulk (_driver self) h ids);
  mret (entities_dict_of _rel_attr_collection).

Definition _get_table_entity (table_id : string) : M EntityGuid :=
  try_except
    (driver_call (entity_guid_call (VStr table_id))
       (λ h, drv_entity_guid (_driver self) h (VStr table_id)))
    except_Exception
    (λ ex,
       _ ← LOGGER_exception ("Table not found. " +:+ exn_msg ex) ex;
       raise (Exn NotFoundException ("Table GUID( " +:+ table_id +:+ " ) does not exist"))).

Definition _get_column (column_id : string) : M EntityGuid :=
  try_except
    (driver_call (entity_guid_call (VStr column_id))
       (λ h, drv_entity_guid (_driver self) h (VStr column_id)))
    except_Exception
    (λ ex,
       _ ← LOGGER_exception ("Column not found: " +:+ exn_msg ex) ex;
       raise (Exn NotFoundException ("Column not found: " +:+ column_id))).

Definition get_user_detail (user_id : string) : M unit := mret ().

(** One [Tag] of the first loop of [get_table]. *)
Definition tag_of (classification : value) : result Tag :=
  n ← py_get classification "typeName";
  Ok {| tag_name := n; tag_type := "default" |}.

(** One [Column] of the second loop of [get_table]. *)
Definition column_of (table_entity : EntityGuid) (column : value) : result Column :=
  g ← py_getitem column "guid";
  col_entity ← dict_getitem_value (referredEntities table_entity) g;
  col_attrs ← py_getitem col_entity ATTRS_KEY;
  n ← py_get col_attrs (NAME_ATTRIBUTE self);
  d ← py_get col_attrs "description";
  ty ← py_get col_attrs "type";
  ty' ← (if truthy ty then Ok ty else py_get col_attrs "dataType");
  pos ← py_get col_attrs "position";
  Ok {| col_name := n; col_description := d; col_type := ty'; sort_order := pos |}.

(** The body of the [try] of [get_table]; it calls neither the driver nor
    the logger. *)
Definition table_of (table_entity : EntityGuid) (table_info : gmap string value)
    : result Table :=
  let table_details := entity table_entity in
  attrs ← dict_getitem table_details ATTRS_KEY;
  rel_attrs ← dict_getitem table_details REL_ATTRS_KEY;
  classifications ← py_iter (py_or (dict_get table_details "classifications" VNone) (VList []));
  tags ← for_each tag_of classifications;
  cols ← py_get rel_attrs "columns";
  cols ← py_iter (py_or cols (VList []));
  columns ← for_each (column_of table_entity) cols;
  t_entity ← dict_getitem table_info "entity";
  t_cluster ← dict_getitem table_info "cluster";
  t_db ← dict_getitem table_info "db";
  t_name ← dict_getitem table_info "name";
  descr ← py_get attrs "description";
  owner ← py_get attrs "owner";
  Ok {| database := t_entity;
        cluster := t_cluster;
        schema := t_db;
        name := t_name;
        tags := tags;
        description := descr;
        owners := [ {| email := owner |} ];
        columns := columns;
        last_updated_timestamp := dict_get table_details "updateTime" VNone |}.

Definition get_table (table_id : string) (table_info : gmap string value) : M Table :=
  table_entity ← _get_table_entity table_id;
  try_except
    (lift (table_of table_entity table_info))
    except_KeyError
    (λ ex,
       _ ← LOGGER_exception ("Error while accessing table information. " +:+ exn_msg ex) ex;
       raise (Exn BadRequest
                ("Some of the required attributes are missing in : ( " +:+ table_id +:+ " )"))).

Definition delete_owner (table_id owner : string) : M unit := mret ().

(** [obj.entity[ATTRS_KEY][field] = x]. *)
Definition set_attribute (obj : EntityGuid) (field : string) (x : value) : result EntityGuid :=
  attrs ← dict_getitem (entity obj) ATTRS_KEY;
  attrs' ← py_setitem attrs field x;
  Ok {| entity := <[ATTRS_KEY := attrs']> (entity obj);
        referredEntities := referredEntities obj |}.

Definition add_owner (table_id owner : string) : M unit :=
  obj ← _get_table_entity table_id;
  obj ← lift (set_attribute obj "owner" (VStr owner));
  driver_call (update_call obj None) (λ h, drv_update (_driver self) h obj None).

Definition get_table_description (table_id : string) : M value :=
  obj ← _get_table_entity table_id;
  lift (attrs ← dict_getitem (entity obj) ATTRS_KEY; py_get attrs "description").

Definition put_table_description (table_id description : string) : M unit :=
  obj ← _get_table_entity table_id;
  obj ← lift (set_attribute obj "description" (VStr description));
  driver_call (update_call obj None) (λ h, drv_update (_driver self) h obj None).

Definition add_tag (table_id tag : string) : M unit :=
  obj ← _get_table_entity table_id;
  g ← lift (dict_getitem (entity obj) "guid");
  let entity_bulk_tag : gmap string value :=
    <["classification" := VDict (<["typeName" := VStr tag]> ∅)]>
      (<["entityGuids" := VList [g]]> ∅) in
  driver_call (entity_bulk_classification_create_call entity_bulk_tag)
    (λ h, drv_entity_bulk_classification_create (_driver self) h entity_bulk_tag).

Definition delete_tag (table_id tag : string) : M unit :=
  try_except
    (obj ← _get_table_entity table_id;
     g ← lift (dict_getitem (entity obj) "guid");
     guid_entity ← driver_call (entity_guid_call g)
                     (λ h, drv_entity_guid (_driver self) h g);
     driver_call (classifications_delete_call guid_entity tag)
       (λ h, drv_classifications_delete (_driver self) h guid_entity tag))
    except_Exception
    (λ ex,
       LOGGER_exception
         ("For some reason this deletes the classification but also always return exception. "
            +:+ exn_msg ex) ex).

Definition put_column_description (column_id description : string) : M unit :=
  column_entity ← _get_column column_id;
  column_entity ← lift (set_attribute column_entity "description" (VStr description));
  driver_call (update_call column_entity (Some "description"))
    (λ h, drv_update (_driver self) h column_entity (Some "description")).

Definition get_column_description (column_id : string) : M value :=
  column_entity ← _get_column column_id;
  lift (attrs ← dict_getitem (entity column_entity) ATTRS_KEY; py_get attrs "description").

(** One [PopularTable] of the loop of [get_popular_tables]. An entity
    object found in [dbs_dict] is true in [if db_entity:], only [None] is
    false. *)
Definition popular_table_of (dbs_dict : gmap string Entity) (ent : Entity)
    : result PopularTable :=
  let attrs := attributes ent in
  db_id ← py_get (dict_get attrs (DB_ATTRIBUTE self) (VDict ∅)) "guid";
  db_entity ← dict_get_value dbs_dict db_id;
  let '(db_name, db_cluster) :=
    match db_entity with
    | Some db_entity =>
        let db_attrs := attributes db_entity in
        (dict_get db_attrs (NAME_ATTRIBUTE self) VNone, dict_get db_attrs "clusterName" VNone)
    | None => (VStr "", VStr "")
    end in
  Ok {| pt_database := typeName ent;
        pt_cluster := db_cluster;
        pt_schema := db_name;
        pt_name := dict_get attrs (NAME_ATTRIBUTE self) VNone;
        pt_description := dict_get attrs "description" VNone |}.

Definition popular_tables_params : gmap string value :=
  <["typeName" := VStr (TABLE_ENTITY self)]>
    (<["excludeDeletedEntities" := VBool true]>
       (<[ATTRS_KEY := VList [VStr (DB_ATTRIBUTE self)]]> ∅)).

Definition get_popular_tables (num_entries : Z) : M (list PopularTable) :=
  let params := popular_tables_params in
  table_entities ←
    try_except
      (_table_collection ← driver_call (search_basic_create_call params)
                             (λ h, drv_search_basic_create (_driver self) h params);
       mret (entities _table_collection))
      except_BadRequest
      (λ ex,
         _ ← LOGGER_exception
               ("Please make sure you have assigned the appropriate self.TABLE_ENTITY entity to your atlas tables. "
                  +:+ exn_msg ex) ex;
         raise (Exn BadRequest "Unable to fetch popular tables. Please check your configurations."));
  dbs_dict ← _get_rel_attributes_dict table_entities (DB_ATTRIBUTE self);
  lift (for_each (popular_table_of dbs_dict) table_entities).

Definition get_latest_updated_ts : M unit := mret ().

Definition get_tags : M (list TagDetail) :=
  typedefs ← driver_call typedefs_call (λ h, drv_typedefs (_driver self) h);
  mret (mjoin ((λ type_def,
                  (λ classification,
                     {| td_tag_name := cd_name classification; tag_count := 0 |})
                    <$> classificationDefs type_def) <$> typedefs)).

Definition get_table_by_user_relation (user_email relation_type : string) : M unit := mret ().

Definition add_table_relation_by_user (table_id user_email relation_type : string)
    : M unit := mret ().

Definition delete_table_relation_by_user (table_id user_email relation_type : string)
    : M unit := mret ().

End Proxy.

(** ** Fixtures (tests/unit/proxy/test_atlas_proxy.py) *)

(** A dictionary literal. *)
Definition dict (items : list (string * value)) : gmap string value :=
  list_to_map items.

(** A driver whose methods answer the same whatever they are asked, as a
    [MagicMock] with a [return_value] or a [side_effect] does. *)
Definition mock_driver (fetch : result EntityGuid) (search : result EntityCollection)
    (bulk : result (list EntityCollection)) (write : result unit) : Driver :=
  {| drv_entity_guid := λ _ _, fetch;
     drv_entity_bulk := λ _ _, bulk;
     drv_search_basic := λ _ _, search ≫= λ c, Ok [c];
     drv_search_basic_create := λ _ _, search;
     drv_update := λ _ _ _, write;
     drv_entity_bulk_classification_create := λ _ _, write;
     drv_classifications_delete := λ _ _ _, write;
     drv_typedefs := λ _, Ok [] |}.

Definition Boom : exn := Exn (OtherException "Exception") "Boom!".

(** The proxy of the tests, under [LocalConfig]. *)
Definition mock_proxy (driver : Driver) : AtlasProxy :=
  {| _driver := driver;
     TABLE_ENTITY := "Table";
     DB_ATTRIBUTE := "db";
     NAME_ATTRIBUTE := "qualifiedName" |}.

Definition table_id : string := "69cdc0de-1efa-428f-9c6e-5aa650c24138".
Definition column_id : string := "5717362e-19a2-4bac-be49-0e4c5851300e".
Definition db_guid : string := "ff6f8097-aead-428a-94ca-3fcb92b02255".

Definition classification_entity : value :=
  VList [VDict (dict [("typeName", VStr "PII_DATA"); ("name", VStr "PII_DATA")])].

Definition test_column : value :=
  VDict (dict [("guid", VStr column_id);
               ("typeName", VStr "COLUMN");
               ("attributes",
                VDict (dict [("qualifiedName", VStr "column@name");
                             ("type", VStr "Managed");
                             ("description", VStr "column description");
                             ("position", VInt 1)]))]).

Definition db_entity : value :=
  VDict (dict [("guid", VStr db_guid);
               ("updateTime", VInt 234);
               ("typeName", VStr "TEST_ENTITY");
               ("attributes",
                VDict (dict [("qualifiedName", VStr "TEST_DB");
                             ("name", VStr "self.db");
                             ("description", VStr "Dummy DB Description");
                             ("owner", VStr "dummy@email.com")]))]).

Definition entity1_attributes : gmap string value :=
  dict [("qualifiedName", VStr "Table1_Qualified");
        ("name", VStr "Table1");
        ("description", VStr "Dummy Description");
        ("owner", VStr "dummy@email.com");
        ("columns", VList [test_column]);
        ("db", db_entity)].

Definition entity1 : gmap string value :=
  dict [("guid", VStr table_id);
        ("typeName", VStr "TEST_ENTITY");
        ("updateTime", VInt 123);
        ("attributes", VDict entity1_attributes);
        ("relationshipAttributes",
         VDict (dict [("db", db_entity); ("columns", VList [test_column])]));
        ("classifications", classification_entity)].

Definition entity2_attributes : gmap string value :=
  dict [("qualifiedName", VStr "Table2_Qualified");
        ("name", VStr "Table1");
        ("description", VStr "Dummy Description");
        ("owner", VStr "dummy@email.com");
        ("db", db_entity)].

(** [_mock_get_table_entity]. *)
Definition mocked_table_entity : EntityGuid :=
  {| entity := entity1;
     referredEntities := dict [(column_id, test_column)] |}.

(** [_mock_get_column]. *)
Definition mocked_column_entity : EntityGuid :=
  {| entity := match test_column with VDict d => d | _ => ∅ end;
     referredEntities := ∅ |}.

Definition test_table_info : gmap string value :=
  dict [("entity", VStr "TEST_ENTITY");
        ("cluster", VStr "TEST_CLUSTER");
        ("db", VStr "TEST_DB");
        ("name", VStr "TEST_TABLE")].

Definition PII_DATA : Tag := {| tag_name := VStr "PII_DATA"; tag_type := "default" |}.

Definition exp_col : Column :=
  {| col_name := VStr "column@name";
     col_description := VStr "column description";
     col_type := VStr "Managed";
     sort_order := VInt 1 |}.

(** The table [test_get_table] expects, with the given tags. *)
Definition expected_table (tags : list Tag) : Table :=
  {| database := VStr "TEST_ENTITY";
     cluster := VStr "TEST_CLUSTER";
     schema := VStr "TEST_DB";
     name := VStr "TEST_TABLE";
     tags := tags;
     description := VStr "Dummy Description";
     owners := [ {| email := VStr "dummy@email.com" |} ];
     columns := [exp_col];
     last_updated_timestamp := VInt 123 |}.


(** [entity1] after [local_entity.pop('attributes')]. *)
Definition entity_missing_info : EntityGuid :=
  {| entity := delete "attributes" entity1; referredEntities := ∅ |}.

(** The two search results of [test_get_popular_tables], both of the
    database [db_entity]. *)
Definition search_entity1 : Entity :=
  {| guid := table_id; typeName := VStr "TEST_ENTITY"; attributes := entity1_attributes |}.

Definition search_entity2 : Entity :=
  {| guid := "eeaf8d38-e986-46fb-a062-88a09c1b728d";
     typeName := VStr "TEST_ENTITY";
     attributes := entity2_attributes |}.

Definition basic_search_collection : EntityCollection :=
  {| entities := [search_entity1; search_entity2] |}.

Definition bulk_db_entity : Entity :=
  {| guid := db_guid;
     typeName := VStr "TEST_ENTITY";
     attributes := dict [("qualifiedName", VStr "TEST_DB");
                         ("clusterName", VStr "TEST_CLUSTER")] |}.

(** ** Vocabulary of the statements *)

(** A reference of the 'columns' list resolves: it carries a guid, the
    guid names a referred entity, and that entity has an attributes
    section. *)
Definition resolves_column (obj : EntityGuid) (column : value) : Prop :=
  ∃ ref g col_entity col_attrs,
    column = VDict ref ∧ ref !! "guid" = Some (VStr g) ∧
    referredEntities obj !! g = Some (VDict col_entity) ∧
    col_entity !! ATTRS_KEY = Some (VDict col_attrs).

(** A well-formed table entity: both sections are there, the
    classifications are [cls] (none when the key is absent or null), the
    column references are [cols] (likewise) and each of them resolves. *)
Definition well_formed_entity (obj : EntityGuid) (cls : list (gmap string value))
    (cols : list value) : Prop :=
  (∃ attrs, entity obj !! ATTRS_KEY = Some (VDict attrs)) ∧
  (∃ rel_attrs, entity obj !! REL_ATTRS_KEY = Some (VDict rel_attrs) ∧
     py_or (dict_get rel_attrs "columns" VNone) (VList []) = VList cols) ∧
  py_or (dict_get (entity obj) "classifications" VNone) (VList []) = VList (VDict <$> cls) ∧
  Forall (resolves_column obj) cols.


(** The tag made of one classification. *)
Definition tag_of_classification (c : gmap string value) : Tag :=
  {| tag_name := dict_get c "typeName" VNone; tag_type := "default" |}.

(** Two failures that a caller can tell apart by the class of the
    exception. *)
Definition distinguishable {A B} (r1 : result A) (r2 : result B) : Prop :=
  ∃ e1 e2, r1 = Raise e1 ∧ r2 = Raise e2 ∧ exn_cls e1 ≠ exn_cls e2.

(** The fetched object with another backend identifier in its 'guid'
    entry, or with none. *)
Definition with_guid (g : option value) (obj : EntityGuid) : EntityGuid :=
  {| entity := partial_alter (λ _, g) "guid" (entity obj);
     referredEntities := referredEntities obj |}.

(** A search that the backend rejects. *)
Definition rejected_search : Driver :=
  mock_driver (Raise Boom) (Raise (Exn BadRequest "Boom!")) (Raise Boom) (Ok ()).

(** A value that can be a dictionary key. *)
Definition hashable (v : value) : bool :=
  match v with VList _ | VDict _ => false | _ => true end.

(** The database id a search result refers to: the 'guid' of its
    DB_ATTRIBUTE, [VNone] when the attribute or its 'guid' is absent. *)
Definition db_id_of (self : AtlasProxy) (ent : Entity) : value :=
  match dict_get (attributes ent) (DB_ATTRIBUTE self) (VDict ∅) with
  | VDict ref => dict_get ref "guid" VNone
  | _ => VNone
  end.

(** The shape of a search result: its DB_ATTRIBUTE, when present, is an
    object reference, and the 'guid' of the reference, when present, is a
    scalar. *)
Definition db_reference_ok (self : AtlasProxy) (ent : Entity) : Prop :=
  (∃ ref, dict_get (attributes ent) (DB_ATTRIBUTE self) (VDict ∅) = VDict ref) ∧
  hashable (db_id_of self ent) = true.

(** The database ids the search results refer to, one entry per result
    that has one, in the order of the results. *)
Definition referenced_db_ids (self : AtlasProxy) (ents : list Entity) : list value :=
  List.filter truthy (db_id_of self <$> ents).

(** The database entity a search result resolves to in [dbs_dict]. *)
Definition resolved_db (self : AtlasProxy) (dbs_dict : gmap string Entity) (ent : Entity)
    : option Entity :=
  match db_id_of self ent with
  | VStr g => dbs_dict !! g
  | _ => None
  end.

(** What a PopularTable made of the search result [ent] holds: the type
    name, name and description of the result, and the cluster and schema of
    the database it resolves to, or empty strings when it resolves to
    none. *)
Definition popular_table_spec (self : AtlasProxy) (dbs_dict : gmap string Entity)
    (ent : Entity) (pt : PopularTable) : Prop :=
  pt_database pt = typeName ent ∧
  pt_name pt = dict_get (attributes ent) (NAME_ATTRIBUTE self) VNone ∧
  pt_description pt = dict_get (attributes ent) "description" VNone ∧
  match resolved_db self dbs_dict ent with
  | Some db =>
      pt_cluster pt = dict_get (attributes db) "clusterName" VNone ∧
      pt_schema pt = dict_get (attributes db) (NAME_ATTRIBUTE self) VNone
  | None => pt_cluster pt = VStr "" ∧ pt_schema pt = VStr ""
  end.

(** The search call of [get_popular_tables], answered. *)
Definition searched (self : AtlasProxy) : event :=
  Called (search_basic_create_call (popular_tables_params self)) None.

(** The driver of [test_get_popular_tables]: the search finds the two
    tables, the bulk fetch delivers the given batches. *)
Definition popular_driver (batches : list EntityCollection) : Driver :=
  mock_driver (Raise Boom) (Ok basic_search_collection) (Ok batches) (Ok ()).

Definition popular_table1 (cluster schema : string) : PopularTable :=
  {| pt_database := VStr "TEST_ENTITY";
     pt_cluster := VStr cluster;
     pt_schema := VStr schema;
     pt_name := VStr "Table1_Qualified";
     pt_description := VStr "Dummy Description" |}.

Definition popular_table2 (cluster schema : string) : PopularTable :=
  {| pt_database := VStr "TEST_ENTITY";
     pt_cluster := VStr cluster;
     pt_schema := VStr schema;
     pt_name := VStr "Table2_Qualified";
     pt_description := VStr "Dummy Description" |}.

(** The search results of [test_get_popular_tables_without_db]: the same
    two tables after [attrs.pop('db')]. *)
Definition search_collection_without_db : EntityCollection :=
  {| entities :=
       [ {| guid := guid search_entity1; typeName := typeName search_entity1;
            attributes := delete "db" entity1_attributes |};
         {| guid := guid search_entity2; typeName := typeName search_entity2;
            attributes := delete "db" entity2_attributes |} ] |}.

(** A bulk fetch delivered in two batches: the database of the two tables
    comes first, another database last. *)
Definition other_db_entity : Entity :=
  {| guid := "0f2e5c1a-other-db";
     typeName := VStr "TEST_ENTITY";
     attributes := dict [("qualifiedName", VStr "OTHER_DB");
                         ("clusterName", VStr "OTHER_CLUSTER")] |}.

Definition two_batches : list EntityCollection :=
  [ {| entities := [bulk_db_entity] |} ] ++ [ {| entities := [other_db_entity] |} ].

(** A computation lets a backend failure through: when one of its driver
    calls raised, it raises as well. *)
Definition propagates {A} (m : M A) : Prop :=
  ∀ h, backend_raised (m h).2 → is_ok (m h).1 = false.

(** Modelled from the spec: the driver's update-entity-attribute(s)
    capability (section 4.2), which belongs to the Atlas client and not to
    this repository. [backend_write stored obj attribute] is the attributes
    section the backend holds for an entity after [obj.update(attribute)],
    when it held [stored] before: a write scoped to an attribute stores
    that attribute of [obj] and nothing else, an unscoped write stores all
    the attributes of [obj]. *)
Definition backend_write (stored : gmap string value) (obj : EntityGuid)
    (attribute : option string) : gmap string value :=
  match entity obj !! ATTRS_KEY with
  | Some (VDict attrs) =>
      match attribute with
      | Some a => partial_alter (λ _, attrs !! a) a stored
      | None => attrs
      end
  | _ => stored
  end.

(** The column entity as [put_column_description] hands it to [update]. *)
Definition described (obj : EntityGuid) (attrs : gmap string value) (description : string)
    : EntityGuid :=
  {| entity := <[ATTRS_KEY := VDict (<["description" := VStr description]> attrs)]> (entity obj);
     referredEntities := referredEntities obj |}.

(** A backend that deletes the classification and reports a failure all
    the same. *)
Definition quirky_driver : Driver :=
  mock_driver (Ok mocked_table_entity) (Raise Boom) (Raise Boom) (Raise Boom).

(** ** ColumnDescriptionAPI (metadata_service/api/column.py) *)

Inductive HTTPStatus : Type := OK | NOT_FOUND | INTERNAL_SERVER_ERROR.

Definition except_NotFoundException (c : exn_class) : bool :=
  match c with NotFoundException => true | _ => false end.

(** The resource, with the Atlas proxy as [self.client]. A response is the
    pair of a body and a status. *)
Module ColumnDescriptionAPI.

Definition does_not_exist (column_id : string) : value :=
  VDict (<["message" := VStr ("column " +:+ column_id +:+ " does not exist")]> ∅).

Definition put (client : AtlasProxy) (column_id description_val : string)
    : M (value * HTTPStatus) :=
  try_except
    (_ ← put_column_description client column_id description_val;
     mret (VNone, OK))
    except_NotFoundException
    (λ _, mret (does_not_exist column_id, NOT_FOUND)).

(** The two [except] clauses of [get]: the first that matches handles. *)
Definition get (client : AtlasProxy) (column_id : string) : M (value * HTTPStatus) :=
  try_except
    (description ← get_column_description client column_id;
     mret (VDict (<["description" := description]> ∅), OK))
    except_Exception
    (λ ex,
       if except_NotFoundException (exn_cls ex)
       then mret (does_not_exist column_id, NOT_FOUND)
       else mret (VDict (<["message" := VStr "Internal server error!"]> ∅),
                  INTERNAL_SERVER_ERROR)).

End ColumnDescriptionAPI.

(** ** Vocabulary of the further statements *)

(** The classes an exception of the pure translation code can have. *)
Definition translation_error (c : exn_class) : Prop :=
  c = KeyError ∨ c = AttributeError ∨ c = TypeError.

Definition is_log (ev : event) : Prop := ∃ msg e, ev = Logged msg e.

Definition is_driver_call (ev : event) : bool :=
  match ev with Called _ _ => true | Logged _ _ => false end.

(** The column made of the attributes section of a referred entity. *)
Definition column_from_attributes (self : AtlasProxy) (col_attrs : gmap string value)
    : Column :=
  {| col_name := dict_get col_attrs (NAME_ATTRIBUTE self) VNone;
     col_description := dict_get col_attrs "description" VNone;
     col_type := py_or (dict_get col_attrs "type" VNone) (dict_get col_attrs "dataType" VNone);
     sort_order := dict_get col_attrs "position" VNone |}.

(** The fetched entity with one attribute replaced, as [add_owner] and the
    description writers hand it to [update]. *)
Definition with_attribute (obj : EntityGuid) (attrs : gmap string value)
    (field : string) (x : value) : EntityGuid :=
  {| entity := <[ATTRS_KEY := VDict (<[field := x]> attrs)]> (entity obj);
     referredEntities := referredEntities obj |}.

(** The payload of [add_tag]. *)
Definition entity_bulk_tag (tag : string) (g : value) : gmap string value :=
  dict [("classification", VDict (dict [("typeName", VStr tag)]));
        ("entityGuids", VList [g])].

(** A column whose attributes have a 'dataType' and no 'type'. *)
Definition column_with_dataType : value :=
  VDict (dict [("guid", VStr column_id);
               ("attributes",
                VDict (dict [("qualifiedName", VStr "column@name");
                             ("dataType", VStr "bigint")]))]).

(** [entity1] with a second column reference that no referred entity
    answers. *)
Definition entity_dangling_column : EntityGuid :=
  {| entity :=
       <["relationshipAttributes" :=
           VDict (dict [("columns",
                         VList [test_column;
                                VDict (dict [("guid", VStr "no-such-column")])])])]> entity1;
     referredEntities := dict [(column_id, test_column)] |}.

(** Two pages of a basic search. *)
Definition two_pages : list EntityCollection :=
  [ {| entities := [search_entity1] |}; {| entities := [search_entity2] |} ].

(** A reference of the 'columns' list that cannot be followed: it has no
    'guid', or its guid names no referred entity, or the referred entity
    has no attributes section. *)
Definition dangling_column (obj : EntityGuid) (column : value) : Prop :=
  ∃ ref, column = VDict ref ∧
         (ref !! "guid" = None ∨
          ∃ g, ref !! "guid" = Some (VStr g) ∧
               (referredEntities obj !! g = None ∨
                ∃ col_entity, referredEntities obj !! g = Some (VDict col_entity) ∧
                              col_entity !! ATTRS_KEY = None)).

(** The Table [t] with [owner] as its only owner. *)
Definition with_owner (t : Table) (owner : string) : Table :=
  {| database := database t;
     cluster := cluster t;
     schema := schema t;
     name := name t;
     tags := tags t;
     description := description t;
     owners := [ {| email := VStr owner |} ];
     columns := columns t;
     last_updated_timestamp := last_updated_timestamp t |}.

(** A search result whose DB_ATTRIBUTE is there and is not an object. *)
Definition db_reference_broken (self : AtlasProxy) (ent : Entity) : Prop :=
  ∃ v, attributes ent !! DB_ATTRIBUTE self = Some v ∧ ∀ ref, v ≠ VDict ref.

(** The DB_ATTRIBUTE of a search result is absent or is an object. *)
Definition db_reference_object (self : AtlasProxy) (ent : Entity) : Prop :=
  ∃ ref, dict_get (attributes ent) (DB_ATTRIBUTE self) (VDict ∅) = VDict ref.

(** The entities a bulk fetch delivered in its last batch, none when it
    delivered no batch. *)
Definition delivered (batches : list EntityCollection) : list Entity :=
  match last batches with
  | Some batch => entities batch
  | None => []
  end.

(** The database of guid [g] in the answer of a bulk fetch: the latest
    entity of that guid in the last batch. *)
Definition delivered_db (batches : list EntityCollection) (g : string) : option Entity :=
  last (filter (λ e, guid e = g) (delivered batches)).

(** One search result whose database reference is null. *)
Definition search_collection_null_db : EntityCollection :=
  {| entities := [ {| guid := table_id; typeName := VStr "TEST_ENTITY";
                      attributes := dict [("qualifiedName", VStr "Table1_Qualified");
                                          ("db", VNone)] |} ] |}.

(** One search result whose database reference has a list for guid. *)
Definition search_collection_list_guid : EntityCollection :=
  {| entities := [ {| guid := table_id; typeName := VStr "TEST_ENTITY";
                      attributes :=
                        dict [("qualifiedName", VStr "Table1_Qualified");
                              ("db", VDict (dict [("guid", VList [VStr db_guid])]))] |} ] |}.

(** ** Running computations *)

Lemma bind_ok {A B} (m : M A) (f : A → M B) h a evs :
  m h = (Ok a, evs) →
  (m ≫= f) h = ((f a (h ++ evs)).1, evs ++ (f a (h ++ evs)).2).
Proof.
  intros Hm. unfold mbind, M_bind. rewrite Hm.
  destruct (f a (h ++ evs)); reflexivity.
Qed.

Lemma bind_raise {A B} (m : M A) (f : A → M B) h e evs :
  m h = (Raise e, evs) → (m ≫= f) h = (Raise e, evs).
Proof. intros Hm. unfold mbind, M_bind. rewrite Hm. reflexivity. Qed.

Lemma bind_ok_eq {A B} (m : M A) (f : A → M B) h a evs r evs' :
  m h = (Ok a, evs) → f a (h ++ evs) = (r, evs') → (m ≫= f) h = (r, evs ++ evs').
Proof. intros Hm Hf. rewrite (bind_ok _ _ _ _ _ Hm), Hf. reflexivity. Qed.

Lemma _get_table_entity_ok self table_id h obj :
  drv_entity_guid (_driver self) h (VStr table_id) = Ok obj →
  _get_table_entity self table_id h
  = (Ok obj, [Called (entity_guid_call (VStr table_id)) None]).
Proof.
  intros Hd. unfold _get_table_entity, try_except, driver_call.
  rewrite Hd. reflexivity.
Qed.

Lemma _get_table_entity_raise self table_id h e :
  drv_entity_guid (_driver self) h (VStr table_id) = Raise e →
  _get_table_entity self table_id h
  = (Raise (Exn NotFoundException ("Table GUID( " +:+ table_id +:+ " ) does not exist")),
     [Called (entity_guid_call (VStr table_id)) (Some e);
      Logged ("Table not found. " +:+ exn_msg e) e]).
Proof.
  intros Hd. unfold _get_table_entity, try_except, driver_call.
  rewrite Hd. reflexivity.
Qed.

Lemma _get_column_ok self column_id h obj :
  drv_entity_guid (_driver self) h (VStr column_id) = Ok obj →
  _get_column self column_id h
  = (Ok obj, [Called (entity_guid_call (VStr column_id)) None]).
Proof.
  intros Hd. unfold _get_column, try_except, driver_call.
  rewrite Hd. reflexivity.
Qed.

Lemma _get_column_raise self column_id h e :
  drv_entity_guid (_driver self) h (VStr column_id) = Raise e →
  _get_column self column_id h
  = (Raise (Exn NotFoundException ("Column not found: " +:+ column_id)),
     [Called (entity_guid_call (VStr column_id)) (Some e);
      Logged ("Column not found: " +:+ exn_msg e) e]).
Proof.
  intros Hd. unfold _get_column, try_except, driver_call.
  rewrite Hd. reflexivity.
Qed.

(** A loop over a list yields its items in the order of the list. *)
Lemma for_each_Forall2 {A B} (f : A → result B) l ys :
  for_each f l = Ok ys → Forall2 (λ x y, f x = Ok y) l ys.
Proof.
  revert ys. induction l as [|x l IH]; intros ys; simpl.
  - intros [= <-]. constructor.
  - destruct (f x) as [y|e] eqn:Hx; simpl; [|discriminate].
    destruct (for_each f l) as [ys'|e] eqn:Hl; simpl; [|discriminate].
    intros [= <-]. constructor; [exact Hx | apply IH; reflexivity].
Qed.

Lemma for_each_fmap {A B} (f : A → result B) (g : A → B) l :
  Forall (λ x, f x = Ok (g x)) l → for_each f l = Ok (g <$> l).
Proof.
  induction 1 as [|x l Hx _ IH]; simpl; [reflexivity|].
  rewrite Hx, IH. reflexivity.
Qed.

Lemma for_each_succeeds {A B} (f : A → result B) l :
  Forall (λ x, ∃ y, f x = Ok y) l → ∃ ys, for_each f l = Ok ys.
Proof.
  induction 1 as [|x l [y Hx] _ [ys IH]]; simpl.
  - eexists; reflexivity.
  - rewrite Hx, IH. eexists; reflexivity.
Qed.

(** ** The tests of the repository, replayed *)

Example test_get_table :
  (get_table (mock_proxy (mock_driver (Ok mocked_table_entity) (Raise Boom) (Raise Boom) (Ok ())))
     table_id test_table_info []).1
  = Ok (expected_table [PII_DATA]).
Proof. vm_compute. reflexivity. Qed.

Example test_get_table_not_found :
  raises
    (get_table (mock_proxy (mock_driver (Raise Boom) (Raise Boom) (Raise Boom) (Ok ())))
       table_id test_table_info []).1
    NotFoundException.
Proof. eexists. vm_compute. reflexivity. Qed.

Example test_get_table_missing_info :
  raises
    (get_table (mock_proxy (mock_driver (Ok entity_missing_info) (Raise Boom) (Raise Boom) (Ok ())))
       table_id ∅ []).1
    BadRequest.
Proof. eexists. vm_compute. reflexivity. Qed.

(** ** get_table *)

Lemma get_table_ok self table_id table_info h obj :
  drv_entity_guid (_driver self) h (VStr table_id) = Ok obj →
  ∀ t, table_of self obj table_info = Ok t →
  get_table self table_id table_info h
  = (Ok t, [Called (entity_guid_call (VStr table_id)) None]).
Proof.
  intros Hd t Ht. unfold get_table.
  rewrite (bind_ok _ _ _ _ _ (_get_table_entity_ok _ _ _ _ Hd)).
  unfold try_except, lift. rewrite Ht. reflexivity.
Qed.

Lemma get_table_returns self table_id table_info h t :
  (get_table self table_id table_info h).1 = Ok t →
  ∃ obj, drv_entity_guid (_driver self) h (VStr table_id) = Ok obj ∧
         table_of self obj table_info = Ok t.
Proof.
  destruct (drv_entity_guid (_driver self) h (VStr table_id)) as [obj|e] eqn:Hd.
  - intros Ht. exists obj. split; [reflexivity|].
    unfold get_table in Ht.
    rewrite (bind_ok _ _ _ _ _ (_get_table_entity_ok _ _ _ _ Hd)) in Ht.
    unfold try_except, lift in Ht. simpl in Ht.
    destruct (table_of self obj table_info) as [t'|e]; [exact Ht|].
    destruct (except_KeyError (exn_cls e)); simpl in Ht; discriminate.
  - unfold get_table.
    rewrite (bind_raise _ _ _ _ _ (_get_table_entity_raise _ _ _ _ Hd)).
    discriminate.
Qed.

Lemma column_of_resolves self obj column :
  resolves_column obj column → ∃ col, column_of self obj column = Ok col.
Proof.
  intros (ref & g & ce & ca & -> & Hg & Hce & Hca).
  unfold column_of, py_getitem, dict_getitem, dict_getitem_value.
  rewrite Hg. simpl. rewrite Hce. simpl. rewrite Hca. simpl.
  destruct (truthy _); eexists; reflexivity.
Qed.

Lemma for_each_tag_of cls :
  for_each tag_of (VDict <$> cls) = Ok (tag_of_classification <$> cls).
Proof.
  induction cls as [|c cls IH]; [reflexivity|].
  rewrite !fmap_cons. cbn [for_each]. rewrite IH. reflexivity.
Qed.





(** C2: when the driver's fetch by id raises, whatever the exception,
    [get_table], [get_table_description], [put_table_description],
    [get_column_description] and [put_column_description] all raise
    NotFoundException. *)
Theorem fetch_failure_raises_NotFoundException
    self h id e table_info description :
  drv_entity_guid (_driver self) h (VStr id) = Raise e →
  raises (get_table self id table_info h).1 NotFoundException ∧
  raises (get_table_description self id h).1 NotFoundException ∧
  raises (put_table_description self id description h).1 NotFoundException ∧
  raises (get_column_description self id h).1 NotFoundException ∧
  raises (put_column_description self id description h).1 NotFoundException.
Proof.
  intros Hd.
  pose proof (_get_table_entity_raise _ _ _ _ Hd) as Ht.
  pose proof (_get_column_raise _ _ _ _ Hd) as Hc.
  unfold get_table, get_table_description, put_table_description,
    get_column_description, put_column_description.
  rewrite !(bind_raise _ _ _ _ _ Ht), !(bind_raise _ _ _ _ _ Hc).
  repeat split; eexists; reflexivity.
Qed.

Lemma fetch_failure_raises_NotFoundException_witness :
  let self := mock_proxy (mock_driver (Raise Boom) (Raise Boom) (Raise Boom) (Ok ())) in
  raises (get_table self table_id test_table_info []).1 NotFoundException ∧
  raises (get_table_description self table_id []).1 NotFoundException ∧
  raises (put_table_description self table_id "DOESNT_MATTER" []).1 NotFoundException ∧
  raises (get_column_description self table_id []).1 NotFoundException ∧
  raises (put_column_description self table_id "DOESNT_MATTER" []).1 NotFoundException.
Proof.
  apply (fetch_failure_raises_NotFoundException
           (mock_proxy (mock_driver (Raise Boom) (Raise Boom) (Raise Boom) (Ok ())))
           [] table_id Boom).
  reflexivity.
Defined.

Lemma get_table_KeyError self table_id table_info h obj k :
  drv_entity_guid (_driver self) h (VStr table_id) = Ok obj →
  table_of self obj table_info = Raise (Exn KeyError k) →
  raises (get_table self table_id table_info h).1 BadRequest.
Proof.
  intros Hd Ht. unfold get_table.
  rewrite (bind_ok _ _ _ _ _ (_get_table_entity_ok _ _ _ _ Hd)).
  unfold try_except, lift. rewrite Ht. eexists. reflexivity.
Qed.

Lemma get_popular_tables_rejected self num_entries h e :
  drv_search_basic_create (_driver self) h (popular_tables_params self) = Raise e →
  exn_cls e = BadRequest →
  raises (get_popular_tables self num_entries h).1 BadRequest.
Proof.
  intros Hd Hc. unfold get_popular_tables.
  erewrite bind_raise; [eexists; reflexivity|].
  unfold try_except.
  erewrite bind_raise; [|unfold driver_call; rewrite Hd; reflexivity].
  rewrite Hc. reflexivity.
Qed.

(** C3, as the code has it: for a table identifier that resolves to an
    entity lacking the 'attributes' or the 'relationshipAttributes' section,
    [get_table] raises BadRequest, a class distinct from NotFoundException;
    [get_popular_tables] raises the same class, BadRequest, when the backend
    rejects the search with BadRequest. *)
Theorem get_table_missing_section_raises_BadRequest
    self h table_id table_info obj :
  drv_entity_guid (_driver self) h (VStr table_id) = Ok obj →
  entity obj !! ATTRS_KEY = None ∨ entity obj !! REL_ATTRS_KEY = None →
  raises (get_table self table_id table_info h).1 BadRequest ∧
  ¬ raises (get_table self table_id table_info h).1 NotFoundException ∧
  (∀ h' num_entries e,
     drv_search_basic_create (_driver self) h' (popular_tables_params self) = Raise e →
     exn_cls e = BadRequest →
     raises (get_popular_tables self num_entries h').1 BadRequest).
Proof.
  intros Hd Hmiss.
  assert (∃ k, table_of self obj table_info = Raise (Exn KeyError k)) as [k Hk].
  { unfold table_of, dict_getitem.
    destruct (entity obj !! ATTRS_KEY) as [attrs|] eqn:Ha.
    - destruct Hmiss as [Hm|Hm]; [discriminate|]. rewrite Hm.
      eexists. reflexivity.
    - eexists. reflexivity. }
  pose proof (get_table_KeyError _ _ _ _ _ _ Hd Hk) as Hbad.
  split; [exact Hbad|]. split.
  - destruct Hbad as [msg Hmsg]. intros [msg' Hmsg']. congruence.
  - intros h' n e. apply get_popular_tables_rejected.
Qed.

Lemma get_table_missing_section_witness :
  let self := mock_proxy (mock_driver (Ok entity_missing_info) (Raise (Exn BadRequest "Boom!"))
                            (Raise Boom) (Ok ())) in
  raises (get_table self table_id ∅ []).1 BadRequest ∧
  ¬ raises (get_table self table_id ∅ []).1 NotFoundException ∧
  (∀ h' num_entries e,
     drv_search_basic_create (_driver self) h' (popular_tables_params self) = Raise e →
     exn_cls e = BadRequest →
     raises (get_popular_tables self num_entries h').1 BadRequest).
Proof.
  apply (get_table_missing_section_raises_BadRequest
           (mock_proxy (mock_driver (Ok entity_missing_info) (Raise (Exn BadRequest "Boom!"))
                          (Raise Boom) (Ok ())))
           [] table_id ∅ entity_missing_info).
  - reflexivity.
  - left. vm_compute. reflexivity.
Defined.

(** C3 refuted as stated: the failure of [get_table] on an entity without
    its 'attributes' section and the failure of [get_popular_tables] on a
    rejected search are both BadRequest, so that their class does not tell
    them apart. *)
Lemma malformed_entity_and_rejected_search_same_class :
  raises (get_table (mock_proxy (mock_driver (Ok entity_missing_info) (Raise Boom)
                                   (Raise Boom) (Ok ())))
            table_id ∅ []).1 BadRequest
  ∧ raises (get_popular_tables (mock_proxy rejected_search) 2 []).1 BadRequest
  ∧ ¬ distinguishable
        (get_table (mock_proxy (mock_driver (Ok entity_missing_info) (Raise Boom)
                                  (Raise Boom) (Ok ())))
           table_id ∅ []).1
        (get_popular_tables (mock_proxy rejected_search) 2 []).1.
Proof.
  assert (∀ A B (r1 : result A) (r2 : result B) c,
            raises r1 c → raises r2 c → ¬ distinguishable r1 r2) as Hsame.
  { intros A B r1 r2 c [m1 ->] [m2 ->] (e1 & e2 & [= <-] & [= <-] & Hne).
    apply Hne. reflexivity. }
  assert (raises (get_table (mock_proxy (mock_driver (Ok entity_missing_info) (Raise Boom)
                                           (Raise Boom) (Ok ())))
                    table_id ∅ []).1 BadRequest) as H1.
  { eexists. vm_compute. reflexivity. }
  assert (raises (get_popular_tables (mock_proxy rejected_search) 2 []).1 BadRequest) as H2.
  { eexists. vm_compute. reflexivity. }
  split; [exact H1|]. split; [exact H2|]. exact (Hsame _ _ _ _ _ H1 H2).
Qed.

Lemma for_each_ext {A B} (f g : A → result B) l :
  (∀ x, f x = g x) → for_each f l = for_each g l.
Proof.
  intros Hfg. induction l as [|x l IH]; simpl; [reflexivity|].
  rewrite Hfg, IH. reflexivity.
Qed.

Lemma column_of_ext self self' obj obj' column :
  NAME_ATTRIBUTE self' = NAME_ATTRIBUTE self →
  referredEntities obj' = referredEntities obj →
  column_of self' obj' column = column_of self obj column.
Proof. intros Hn Hr. unfold column_of. rewrite Hn, Hr. reflexivity. Qed.

(** The translation reads neither the 'guid' entry of the entity nor the
    identifier the entity was fetched by. *)
Lemma table_of_with_guid self self' g obj table_info :
  NAME_ATTRIBUTE self' = NAME_ATTRIBUTE self →
  table_of self' (with_guid g obj) table_info = table_of self obj table_info.
Proof.
  intros Hn. unfold table_of, dict_getitem, dict_get, ATTRS_KEY, REL_ATTRS_KEY.
  cbn [entity with_guid].
  rewrite !lookup_partial_alter_ne by discriminate.
  repeat match goal with
         | |- mbind _ (for_each (column_of self' ?o) ?cols) = _ =>
             rewrite (for_each_ext (column_of self' o) (column_of self obj) cols)
               by (intros c; apply column_of_ext; [exact Hn | reflexivity])
         | |- mbind _ ?r = mbind _ ?r =>
             destruct r; cbn [mbind result_bind]; [|reflexivity]
         end.
  reflexivity.
Qed.

Lemma dict_getitem_Ok d k v : dict_getitem d k = Ok v → d !! k = Some v.
Proof. unfold dict_getitem. destruct (d !! k); [congruence | discriminate]. Qed.

Lemma table_of_table_info self obj table_info t :
  table_of self obj table_info = Ok t →
  table_info !! "entity" = Some (database t) ∧
  table_info !! "cluster" = Some (cluster t) ∧
  table_info !! "db" = Some (schema t) ∧
  table_info !! "name" = Some (name t).
Proof.
  unfold table_of.
  repeat match goal with
         | |- context [mbind _ ?r] =>
             let H := fresh "E" in destruct r eqn:H; cbn [mbind result_bind];
             [|discriminate]
         end.
  intros [= <-]. cbn. repeat split; apply dict_getitem_Ok; assumption.
Qed.

(** C8: on success, the database, cluster, schema and name of the returned
    Table are the 'entity', 'cluster', 'db' and 'name' entries of
    [table_info], and the Table carries nothing of the backend identifier:
    the same Table comes back when the entity is fetched by any other
    identifier and has any other 'guid' entry, or none. *)
Theorem get_table_identity_is_table_info
    self h table_id table_info obj t :
  drv_entity_guid (_driver self) h (VStr table_id) = Ok obj →
  (get_table self table_id table_info h).1 = Ok t →
  (table_info !! "entity" = Some (database t) ∧
   table_info !! "cluster" = Some (cluster t) ∧
   table_info !! "db" = Some (schema t) ∧
   table_info !! "name" = Some (name t)) ∧
  (∀ self' h' table_id' g,
     NAME_ATTRIBUTE self' = NAME_ATTRIBUTE self →
     drv_entity_guid (_driver self') h' (VStr table_id') = Ok (with_guid g obj) →
     (get_table self' table_id' table_info h').1 = Ok t).
Proof.
  intros Hd Hok.
  destruct (get_table_returns _ _ _ _ _ Hok) as (obj0 & Hd0 & Ht).
  assert (obj0 = obj) as -> by congruence.
  split; [exact (table_of_table_info _ _ _ _ Ht)|].
  intros self' h' table_id' g Hn Hd'.
  rewrite (get_table_ok self' table_id' table_info h' (with_guid g obj) Hd' t);
    [reflexivity|].
  rewrite (table_of_with_guid self self') by exact Hn. exact Ht.
Qed.

Lemma get_table_identity_is_table_info_witness :
  let t := expected_table [PII_DATA] in
  (test_table_info !! "entity" = Some (database t) ∧
   test_table_info !! "cluster" = Some (cluster t) ∧
   test_table_info !! "db" = Some (schema t) ∧
   test_table_info !! "name" = Some (name t)) ∧
  (∀ self' h' table_id' g,
     NAME_ATTRIBUTE self' = "qualifiedName" →
     drv_entity_guid (_driver self') h' (VStr table_id') = Ok (with_guid g mocked_table_entity) →
     (get_table self' table_id' test_table_info h').1 = Ok t).
Proof.
  apply (get_table_identity_is_table_info
           (mock_proxy (mock_driver (Ok mocked_table_entity) (Raise Boom) (Raise Boom) (Ok ())))
           [] table_id test_table_info mocked_table_entity (expected_table [PII_DATA])).
  - reflexivity.
  - vm_compute. reflexivity.
Defined.

(** The identifier is not in the Table of the tests: fetched under another
    id and with another 'guid' entry, the entity gives the same Table. *)
Example get_table_other_guid :
  (get_table
     (mock_proxy (mock_driver (Ok (with_guid (Some (VStr "another-guid")) mocked_table_entity))
                    (Raise Boom) (Raise Boom) (Ok ())))
     "another-guid" test_table_info []).1
  = Ok (expected_table [PII_DATA]).
Proof. vm_compute. reflexivity. Qed.

(** ** get_popular_tables *)

Example test_get_popular_tables :
  (get_popular_tables (mock_proxy (popular_driver [ {| entities := [bulk_db_entity] |} ]))
     2 []).1
  = Ok [popular_table1 "TEST_CLUSTER" "TEST_DB"; popular_table2 "TEST_CLUSTER" "TEST_DB"].
Proof. vm_compute. reflexivity. Qed.

Example test_get_popular_tables_without_db :
  (get_popular_tables
     (mock_proxy (mock_driver (Raise Boom) (Ok search_collection_without_db) (Ok []) (Ok ())))
     2 []).1
  = Ok [popular_table1 "" ""; popular_table2 "" ""].
Proof. vm_compute. reflexivity. Qed.

Example test_get_popular_tables_search_exception :
  raises (get_popular_tables (mock_proxy rejected_search) 2 []).1 BadRequest.
Proof. eexists. vm_compute. reflexivity. Qed.

(** The limit does not cap the listing. *)
Example get_popular_tables_limit_1 :
  (get_popular_tables (mock_proxy (popular_driver [ {| entities := [bulk_db_entity] |} ]))
     1 []).1
  = Ok [popular_table1 "TEST_CLUSTER" "TEST_DB"; popular_table2 "TEST_CLUSTER" "TEST_DB"].
Proof. vm_compute. reflexivity. Qed.

(** A reference that is present but null is not a missing key: [.get]
    is then called on [None]. *)
Example get_popular_tables_null_db :
  raises
    (get_popular_tables
       (mock_proxy
          (mock_driver (Raise Boom)
             (Ok {| entities := [ {| guid := table_id; typeName := VStr "TEST_ENTITY";
                                     attributes := dict [("db", VNone)] |} ] |})
             (Ok []) (Ok ())))
       2 []).1
    AttributeError.
Proof. eexists. vm_compute. reflexivity. Qed.

Lemma for_each_Forall2_spec {A B} (f : A → result B) (R : A → B → Prop) l :
  Forall (λ x, ∃ y, f x = Ok y ∧ R x y) l →
  ∃ ys, for_each f l = Ok ys ∧ Forall2 R l ys.
Proof.
  induction 1 as [|x l (y & Hx & Hy) _ (ys & IH & HR)]; simpl.
  - exists []. split; [reflexivity | constructor].
  - rewrite Hx, IH. exists (y :: ys). split; [reflexivity | constructor; assumption].
Qed.

Lemma rel_attribute_ids_ok self ents :
  Forall (db_reference_ok self) ents →
  rel_attribute_ids (DB_ATTRIBUTE self) ents = Ok (referenced_db_ids self ents).
Proof.
  unfold referenced_db_ids.
  induction 1 as [|ent ents [[ref Href] _] _ IH]; [reflexivity|].
  rewrite fmap_cons. cbn [rel_attribute_ids List.filter].
  unfold db_id_of at 1 2. rewrite Href. cbn [py_get mbind result_bind].
  rewrite IH. cbn [mbind result_bind]. reflexivity.
Qed.

Lemma popular_table_of_ok self dbs_dict ent :
  db_reference_ok self ent →
  ∃ pt, popular_table_of self dbs_dict ent = Ok pt ∧ popular_table_spec self dbs_dict ent pt.
Proof.
  intros [[ref Href] Hhash]. unfold popular_table_of, popular_table_spec, resolved_db.
  unfold db_id_of in *. rewrite Href in *. cbn [py_get mbind result_bind].
  destruct (dict_get ref "guid" VNone) as [| | |g| |]; try discriminate;
    cbn [dict_get_value mbind result_bind];
    try (eexists; split; [reflexivity|]; cbn; repeat split; reflexivity).
  destruct (dbs_dict !! g) as [db|];
    eexists; (split; [reflexivity|]); cbn; repeat split; reflexivity.
Qed.

Lemma search_ok self h c :
  drv_search_basic_create (_driver self) h (popular_tables_params self) = Ok c →
  try_except
    (_table_collection ← driver_call (search_basic_create_call (popular_tables_params self))
                           (λ h, drv_search_basic_create (_driver self) h
                                   (popular_tables_params self));
     mret (entities _table_collection))
    except_BadRequest
    (λ ex,
       _ ← LOGGER_exception
             ("Please make sure you have assigned the appropriate self.TABLE_ENTITY entity to your atlas tables. "
                +:+ exn_msg ex) ex;
       raise (Exn BadRequest "Unable to fetch popular tables. Please check your configurations."))
    h
  = (Ok (entities c), [searched self]).
Proof.
  intros Hs. unfold try_except.
  erewrite bind_ok; [|unfold driver_call; rewrite Hs; reflexivity].
  reflexivity.
Qed.

(** [_get_rel_attributes_dict] makes one driver call, the bulk fetch of
    the collected ids, and keeps what [entities_dict_of] makes of the
    answer. *)
Lemma _get_rel_attributes_dict_run self ents attribute h ids :
  rel_attribute_ids attribute ents = Ok ids →
  _get_rel_attributes_dict self ents attribute h
  = (bs ← drv_entity_bulk (_driver self) h ids; Ok (entities_dict_of bs),
     [Called (entity_bulk_call ids) (raised_of (drv_entity_bulk (_driver self) h ids))]).
Proof.
  intros Hids. unfold _get_rel_attributes_dict.
  eapply (bind_ok_eq _ _ h ids []); [unfold lift; rewrite Hids; reflexivity|].
  rewrite app_nil_r. unfold driver_call.
  destruct (drv_entity_bulk (_driver self) h ids) as [bs|e] eqn:Hb.
  - erewrite bind_ok; [|rewrite Hb; reflexivity]. reflexivity.
  - erewrite bind_raise; [|rewrite Hb; reflexivity]. reflexivity.
Qed.

(** The driver calls of [get_popular_tables] once the search has answered:
    the search and one bulk fetch, whatever the bulk fetch answers. *)
Lemma get_popular_tables_events self num_entries h c :
  drv_search_basic_create (_driver self) h (popular_tables_params self) = Ok c →
  Forall (db_reference_ok self) (entities c) →
  (get_popular_tables self num_entries h).2
  = [searched self;
     Called (entity_bulk_call (referenced_db_ids self (entities c)))
       (raised_of (drv_entity_bulk (_driver self) (h ++ [searched self])
                     (referenced_db_ids self (entities c))))].
Proof.
  intros Hs Hshape. unfold get_popular_tables.
  rewrite (bind_ok _ _ _ _ _ (search_ok _ _ _ Hs)). cbn [snd].
  pose proof (_get_rel_attributes_dict_run self (entities c) (DB_ATTRIBUTE self)
                (h ++ [searched self]) _ (rel_attribute_ids_ok _ _ Hshape)) as Hrun.
  destruct (drv_entity_bulk _ _ _) as [bs|e]; cbn [mbind result_bind] in Hrun.
  - rewrite (bind_ok _ _ _ _ _ Hrun). reflexivity.
  - rewrite (bind_raise _ _ _ _ _ Hrun). reflexivity.
Qed.

(** The outcome of [get_popular_tables] once the search and the bulk fetch
    have answered. *)
Lemma get_popular_tables_run self num_entries h c batches :
  drv_search_basic_create (_driver self) h (popular_tables_params self) = Ok c →
  Forall (db_reference_ok self) (entities c) →
  drv_entity_bulk (_driver self) (h ++ [searched self])
    (referenced_db_ids self (entities c)) = Ok batches →
  ∃ pts, (get_popular_tables self num_entries h).1 = Ok pts ∧
         Forall2 (popular_table_spec self (entities_dict_of batches)) (entities c) pts.
Proof.
  intros Hs Hshape Hb.
  destruct (for_each_Forall2_spec (popular_table_of self (entities_dict_of batches))
              (popular_table_spec self (entities_dict_of batches)) (entities c))
    as (pts & Hpts & Hspec).
  { eapply Forall_impl; [exact Hshape|]. intros ent. apply popular_table_of_ok. }
  exists pts. split; [|exact Hspec].
  unfold get_popular_tables.
  rewrite (bind_ok _ _ _ _ _ (search_ok _ _ _ Hs)). cbn [fst].
  pose proof (_get_rel_attributes_dict_run self (entities c) (DB_ATTRIBUTE self)
                (h ++ [searched self]) _ (rel_attribute_ids_ok _ _ Hshape)) as Hrun.
  rewrite Hb in Hrun. cbn [mbind result_bind] in Hrun.
  rewrite (bind_ok _ _ _ _ _ Hrun). unfold lift. cbn [fst]. exact Hpts.
Qed.

Lemma foldl_insert_guid_None (l : list Entity) (acc : gmap string Entity) g :
  foldl (λ d rel_entity, <[guid rel_entity := rel_entity]> d) acc l !! g = None
  ↔ acc !! g = None ∧ g ∉ guid <$> l.
Proof.
  revert acc. induction l as [|x l IH]; intros acc.
  - cbn. split; [intros H; split; [exact H | apply not_elem_of_nil] | intros [H _]; exact H].
  - cbn [foldl]. rewrite IH, lookup_insert_None, fmap_cons, not_elem_of_cons.
    split; [intros [[Ha Hx] Hl] | intros [Ha [Hx Hl]]]; repeat split; auto.
Qed.

Lemma foldl_insert_guid_Some (l : list Entity) (acc : gmap string Entity) g db :
  foldl (λ d rel_entity, <[guid rel_entity := rel_entity]> d) acc l !! g = Some db →
  acc !! g = Some db ∨ (db ∈ l ∧ guid db = g).
Proof.
  revert acc. induction l as [|x l IH]; intros acc; cbn [foldl].
  - intros H. left. exact H.
  - intros H. destruct (IH _ H) as [Hacc | [Hin Hg]].
    + destruct (decide (guid x = g)) as [Heq|Hne].
      * rewrite <- Heq, lookup_insert_eq in Hacc. injection Hacc as <-.
        right. split; [constructor | exact Heq].
      * rewrite lookup_insert_ne in Hacc by exact Hne. left. exact Hacc.
    + right. split; [constructor; exact Hin | exact Hg].
Qed.

Lemma dict_by_guid_None l g : dict_by_guid l !! g = None ↔ g ∉ guid <$> l.
Proof.
  unfold dict_by_guid. rewrite foldl_insert_guid_None, lookup_empty. tauto.
Qed.

Lemma dict_by_guid_Some l g db :
  dict_by_guid l !! g = Some db → db ∈ l ∧ guid db = g.
Proof.
  unfold dict_by_guid. intros [H | H]%foldl_insert_guid_Some; [|exact H].
  rewrite lookup_empty in H. discriminate.
Qed.

(** Each batch replaces the dictionary of the batches before it. *)
Lemma entities_dict_of_last batches last :
  entities_dict_of (batches ++ [last]) = dict_by_guid (entities last).
Proof. unfold entities_dict_of. rewrite foldl_app. reflexivity. Qed.

Lemma resolved_db_missing self dbs_dict ent :
  attributes ent !! DB_ATTRIBUTE self = None → resolved_db self dbs_dict ent = None.
Proof.
  intros Hm. unfold resolved_db, db_id_of, dict_get. rewrite Hm. cbn.
  rewrite lookup_empty. reflexivity.
Qed.

Lemma db_reference_ok_missing self ent :
  attributes ent !! DB_ATTRIBUTE self = None → db_reference_ok self ent.
Proof.
  intros Hm. unfold db_reference_ok, db_id_of, dict_get. rewrite Hm. cbn.
  rewrite lookup_empty. split; [eexists; reflexivity | reflexivity].
Qed.

Lemma dict_by_guid_snoc l e : dict_by_guid (l ++ [e]) = <[guid e := e]> (dict_by_guid l).
Proof. unfold dict_by_guid. rewrite foldl_app. reflexivity. Qed.

Lemma dict_by_guid_last l g :
  dict_by_guid l !! g = last (filter (λ e, guid e = g) l).
Proof.
  induction l as [|e l IH] using rev_ind; [reflexivity|].
  rewrite dict_by_guid_snoc, filter_app, filter_cons, filter_nil.
  destruct (decide (guid e = g)) as [Heq|Hne].
  - rewrite last_snoc, <- Heq, lookup_insert_eq. reflexivity.
  - rewrite app_nil_r, lookup_insert_ne by exact Hne. exact IH.
Qed.

(** The dictionary of the databases is made of what the last batch
    delivered. *)
Lemma entities_dict_of_delivered batches :
  entities_dict_of batches = dict_by_guid (delivered batches).
Proof.
  unfold delivered. induction batches as [|batch batches _] using rev_ind; [reflexivity|].
  rewrite entities_dict_of_last, last_snoc. reflexivity.
Qed.

Lemma resolved_db_delivered self batches ent g :
  db_id_of self ent = VStr g →
  resolved_db self (entities_dict_of batches) ent = delivered_db batches g.
Proof.
  intros Hg. unfold resolved_db, delivered_db.
  rewrite Hg, entities_dict_of_delivered. apply dict_by_guid_last.
Qed.

Lemma resolved_db_not_delivered self batches ent :
  (∀ g, db_id_of self ent = VStr g → g ∉ guid <$> delivered batches) →
  resolved_db self (entities_dict_of batches) ent = None.
Proof.
  intros Hnot. unfold resolved_db.
  destruct (db_id_of self ent) as [| | |g| |] eqn:Hg; try reflexivity.
  rewrite entities_dict_of_delivered. apply dict_by_guid_None, Hnot. reflexivity.
Qed.

Lemma rel_attribute_ids_object self ents :
  Forall (db_reference_object self) ents →
  rel_attribute_ids (DB_ATTRIBUTE self) ents = Ok (referenced_db_ids self ents).
Proof.
  unfold referenced_db_ids.
  induction 1 as [|ent ents [ref Href] _ IH]; [reflexivity|].
  rewrite fmap_cons. cbn [rel_attribute_ids List.filter].
  unfold db_id_of at 1 2. rewrite Href. cbn [py_get mbind result_bind].
  rewrite IH. cbn [mbind result_bind]. reflexivity.
Qed.

(** The events of [get_popular_tables] when the DB_ATTRIBUTE of every
    result is absent or an object: the search and one bulk fetch, whatever
    the fetch answers and whatever comes of the answer. *)
Lemma get_popular_tables_events_object self num_entries h c :
  drv_search_basic_create (_driver self) h (popular_tables_params self) = Ok c →
  Forall (db_reference_object self) (entities c) →
  (get_popular_tables self num_entries h).2
  = [searched self;
     Called (entity_bulk_call (referenced_db_ids self (entities c)))
       (raised_of (drv_entity_bulk (_driver self) (h ++ [searched self])
                     (referenced_db_ids self (entities c))))].
Proof.
  intros Hs Hshape. unfold get_popular_tables.
  rewrite (bind_ok _ _ _ _ _ (search_ok _ _ _ Hs)). cbn [snd].
  pose proof (_get_rel_attributes_dict_run self (entities c) (DB_ATTRIBUTE self)
                (h ++ [searched self]) _ (rel_attribute_ids_object _ _ Hshape)) as Hrun.
  destruct (drv_entity_bulk _ _ _) as [bs|e]; cbn [mbind result_bind] in Hrun.
  - rewrite (bind_ok _ _ _ _ _ Hrun). reflexivity.
  - rewrite (bind_raise _ _ _ _ _ Hrun). reflexivity.
Qed.

(** C4, as the code has it: when the database attribute of every search
    result is absent or an object, [get_popular_tables] makes two driver
    calls, the search and exactly one bulk entity fetch, whose guid
    argument lists the database ids the results refer to in the order of
    the results, one entry per result that refers to a database (a
    database that two tables refer to is listed twice); and when the fetch
    answers and the ids are scalars, every result that refers to a
    database the fetch delivered gets the clusterName and the name of that
    database as its cluster and schema, so that two results that refer to
    the same delivered database both carry them. *)
Theorem get_popular_tables_one_bulk_fetch self num_entries h c :
  drv_search_basic_create (_driver self) h (popular_tables_params self) = Ok c →
  Forall (db_reference_object self) (entities c) →
  (get_popular_tables self num_entries h).2
  = [searched self;
     Called (entity_bulk_call (referenced_db_ids self (entities c)))
       (raised_of (drv_entity_bulk (_driver self) (h ++ [searched self])
                     (referenced_db_ids self (entities c))))] ∧
  ∀ batches,
    drv_entity_bulk (_driver self) (h ++ [searched self])
      (referenced_db_ids self (entities c)) = Ok batches →
    Forall (db_reference_ok self) (entities c) →
    ∃ pts, (get_popular_tables self num_entries h).1 = Ok pts ∧
           Forall2 (λ ent pt,
                      ∀ g db, db_id_of self ent = VStr g →
                              delivered_db batches g = Some db →
                              pt_cluster pt = dict_get (attributes db) "clusterName" VNone ∧
                              pt_schema pt
                              = dict_get (attributes db) (NAME_ATTRIBUTE self) VNone)
             (entities c) pts ∧
           ∀ i j ent1 ent2 pt1 pt2 g db,
             entities c !! i = Some ent1 → entities c !! j = Some ent2 →
             pts !! i = Some pt1 → pts !! j = Some pt2 →
             db_id_of self ent1 = VStr g → db_id_of self ent2 = VStr g →
             delivered_db batches g = Some db →
             (pt_cluster pt1 = dict_get (attributes db) "clusterName" VNone ∧
              pt_schema pt1 = dict_get (attributes db) (NAME_ATTRIBUTE self) VNone) ∧
             (pt_cluster pt2 = dict_get (attributes db) "clusterName" VNone ∧
              pt_schema pt2 = dict_get (attributes db) (NAME_ATTRIBUTE self) VNone).
Proof.
  intros Hs Hobj. split; [exact (get_popular_tables_events_object _ _ _ _ Hs Hobj)|].
  intros batches Hb Hshape.
  destruct (get_popular_tables_run _ num_entries _ _ _ Hs Hshape Hb) as (pts & Hpts & Hspec).
  assert (Forall2 (λ ent pt,
                     ∀ g db, db_id_of self ent = VStr g →
                             delivered_db batches g = Some db →
                             pt_cluster pt = dict_get (attributes db) "clusterName" VNone ∧
                             pt_schema pt
                             = dict_get (attributes db) (NAME_ATTRIBUTE self) VNone)
            (entities c) pts) as Hall.
  { eapply Forall2_impl; [exact Hspec|].
    intros ent pt (_ & _ & _ & Hdb) g db Hg Hdel.
    rewrite (resolved_db_delivered _ _ _ _ Hg), Hdel in Hdb. exact Hdb. }
  exists pts. split; [exact Hpts|]. split; [exact Hall|].
  intros i j ent1 ent2 pt1 pt2 g db Hi Hj Hpi Hpj Hg1 Hg2 Hdel. split.
  - exact (Forall2_lookup_lr _ _ _ _ _ _ Hall Hi Hpi g db Hg1 Hdel).
  - exact (Forall2_lookup_lr _ _ _ _ _ _ Hall Hj Hpj g db Hg2 Hdel).
Qed.

Lemma get_popular_tables_one_bulk_fetch_witness :
  let self := mock_proxy (popular_driver [ {| entities := [bulk_db_entity] |} ]) in
  (get_popular_tables self 2 []).2
  = [searched self; Called (entity_bulk_call [VStr db_guid; VStr db_guid]) None] ∧
  (get_popular_tables self 2 []).1
  = Ok [popular_table1 "TEST_CLUSTER" "TEST_DB"; popular_table2 "TEST_CLUSTER" "TEST_DB"] ∧
  (pt_cluster (popular_table1 "TEST_CLUSTER" "TEST_DB")
   = dict_get (attributes bulk_db_entity) "clusterName" VNone ∧
   pt_schema (popular_table1 "TEST_CLUSTER" "TEST_DB")
   = dict_get (attributes bulk_db_entity) "qualifiedName" VNone) ∧
  (pt_cluster (popular_table2 "TEST_CLUSTER" "TEST_DB")
   = dict_get (attributes bulk_db_entity) "clusterName" VNone ∧
   pt_schema (popular_table2 "TEST_CLUSTER" "TEST_DB")
   = dict_get (attributes bulk_db_entity) "qualifiedName" VNone).
Proof.
  destruct (get_popular_tables_one_bulk_fetch
              (mock_proxy (popular_driver [ {| entities := [bulk_db_entity] |} ]))
              2 [] basic_search_collection) as [Hev Htables].
  - reflexivity.
  - repeat constructor; eexists; vm_compute; reflexivity.
  - destruct (Htables [ {| entities := [bulk_db_entity] |} ]) as (pts & Hpts & _ & Hboth).
    + reflexivity.
    + repeat constructor; try (eexists; vm_compute; reflexivity).
    + assert (pts = [popular_table1 "TEST_CLUSTER" "TEST_DB";
                     popular_table2 "TEST_CLUSTER" "TEST_DB"]) as ->.
      { rewrite test_get_popular_tables in Hpts. congruence. }
      split; [exact Hev|]. split; [exact Hpts|].
      apply (Hboth 0%nat 1%nat search_entity1 search_entity2 _ _ db_guid bulk_db_entity);
        vm_compute; reflexivity.
Defined.

(** C4 refuted as stated: the two tables of the tests refer to one
    database, and the guid argument of the bulk fetch names it twice; and
    for a result whose database reference is null there is no bulk fetch
    at all. *)
Lemma get_popular_tables_bulk_guids_repeat :
  ((get_popular_tables (mock_proxy (popular_driver [ {| entities := [bulk_db_entity] |} ]))
      2 []).2
   = [searched (mock_proxy (popular_driver [ {| entities := [bulk_db_entity] |} ]));
      Called (entity_bulk_call [VStr db_guid; VStr db_guid]) None]
   ∧ ¬ NoDup [VStr db_guid; VStr db_guid])
  ∧ (get_popular_tables
       (mock_proxy (mock_driver (Raise Boom) (Ok search_collection_null_db) (Ok []) (Ok ())))
       2 []).2
    = [searched (mock_proxy (mock_driver (Raise Boom) (Ok search_collection_null_db)
                               (Ok []) (Ok ())))].
Proof.
  split; [split|]; [vm_compute; reflexivity | | vm_compute; reflexivity].
  intros [Hn _]%NoDup_cons. apply Hn. constructor.
Qed.

(** C5, as the code has it: when the database attribute of every search
    result is absent or an object whose guid is absent or a scalar, and
    the bulk fetch answers, [get_popular_tables] returns one PopularTable
    per search result, in the order of the results and whatever
    [num_entries] is; each carries the type name, name and description of
    its result, and a result whose database attribute is absent, or whose
    database id is the guid of no entity the fetch delivered, gets an empty
    cluster and an empty schema. *)
Theorem get_popular_tables_lists_every_result
    self num_entries h c batches :
  drv_search_basic_create (_driver self) h (popular_tables_params self) = Ok c →
  Forall (db_reference_ok self) (entities c) →
  drv_entity_bulk (_driver self) (h ++ [searched self])
    (referenced_db_ids self (entities c)) = Ok batches →
  ∃ pts, (get_popular_tables self num_entries h).1 = Ok pts ∧
         length pts = length (entities c) ∧
         Forall2 (λ ent pt,
                    pt_database pt = typeName ent ∧
                    pt_name pt = dict_get (attributes ent) (NAME_ATTRIBUTE self) VNone ∧
                    pt_description pt = dict_get (attributes ent) "description" VNone ∧
                    (attributes ent !! DB_ATTRIBUTE self = None →
                     pt_cluster pt = VStr "" ∧ pt_schema pt = VStr "") ∧
                    ((∀ g, db_id_of self ent = VStr g → g ∉ guid <$> delivered batches) →
                     pt_cluster pt = VStr "" ∧ pt_schema pt = VStr "") ∧
                    (resolved_db self (entities_dict_of batches) ent = None →
                     pt_cluster pt = VStr "" ∧ pt_schema pt = VStr ""))
           (entities c) pts.
Proof.
  intros Hs Hshape Hb.
  destruct (get_popular_tables_run _ num_entries _ _ _ Hs Hshape Hb) as (pts & Hpts & Hspec).
  exists pts. split; [exact Hpts|]. split.
  - symmetry. eapply Forall2_length, Hspec.
  - eapply Forall2_impl; [exact Hspec|].
    intros ent pt (Hd & Hn & Hdescr & Hdb).
    assert (resolved_db self (entities_dict_of batches) ent = None →
            pt_cluster pt = VStr "" ∧ pt_schema pt = VStr "") as Hnone.
    { intros Hres. rewrite Hres in Hdb. exact Hdb. }
    split; [exact Hd|]. split; [exact Hn|]. split; [exact Hdescr|].
    split; [|split].
    + intros Hmiss. apply Hnone, resolved_db_missing, Hmiss.
    + intros Hnot. apply Hnone, resolved_db_not_delivered, Hnot.
    + exact Hnone.
Qed.

Lemma get_popular_tables_lists_every_result_witness :
  let self := mock_proxy (popular_driver two_batches) in
  ∃ pts, (get_popular_tables self 1 []).1 = Ok pts ∧
         length pts = 2 ∧
         Forall2 (λ ent pt,
                    pt_database pt = typeName ent ∧
                    pt_name pt = dict_get (attributes ent) (NAME_ATTRIBUTE self) VNone ∧
                    pt_description pt = dict_get (attributes ent) "description" VNone ∧
                    (attributes ent !! DB_ATTRIBUTE self = None →
                     pt_cluster pt = VStr "" ∧ pt_schema pt = VStr "") ∧
                    ((∀ g, db_id_of self ent = VStr g → g ∉ guid <$> delivered two_batches) →
                     pt_cluster pt = VStr "" ∧ pt_schema pt = VStr "") ∧
                    (resolved_db self (entities_dict_of two_batches) ent = None →
                     pt_cluster pt = VStr "" ∧ pt_schema pt = VStr ""))
           (entities basic_search_collection) pts.
Proof.
  apply (get_popular_tables_lists_every_result
           (mock_proxy (popular_driver two_batches)) 1 [] basic_search_collection two_batches).
  - reflexivity.
  - repeat constructor; try (eexists; vm_compute; reflexivity).
  - reflexivity.
Defined.

(** C5 refuted as stated: a result whose database reference is null, a
    result whose reference has a list for guid, and a bulk fetch that
    raises each make the whole call fail, so that no PopularTable is
    returned for any result. *)
Lemma get_popular_tables_fails_for_some_results :
  raises
    (get_popular_tables
       (mock_proxy (mock_driver (Raise Boom) (Ok search_collection_null_db) (Ok []) (Ok ())))
       2 []).1
    AttributeError
  ∧ raises
      (get_popular_tables
         (mock_proxy (mock_driver (Raise Boom) (Ok search_collection_list_guid) (Ok []) (Ok ())))
         2 []).1
      TypeError
  ∧ (get_popular_tables
       (mock_proxy (mock_driver (Raise Boom) (Ok search_collection_without_db)
                      (Raise Boom) (Ok ())))
       2 []).1
    = Raise Boom.
Proof.
  split; [eexists; vm_compute; reflexivity|].
  split; [eexists; vm_compute; reflexivity|].
  vm_compute. reflexivity.
Qed.

(** C10: when the bulk fetch delivers its entities in several batches,
    [_get_rel_attributes_dict] returns the dictionary of the last batch
    alone, and [get_popular_tables] gives the cluster and schema of its
    database to a result whose database id is in the last batch, and empty
    strings to a result whose database id is not. *)
Theorem only_the_last_batch_is_kept
    self num_entries h c batches last :
  drv_search_basic_create (_driver self) h (popular_tables_params self) = Ok c →
  Forall (db_reference_ok self) (entities c) →
  drv_entity_bulk (_driver self) (h ++ [searched self])
    (referenced_db_ids self (entities c)) = Ok (batches ++ [last]) →
  (_get_rel_attributes_dict self (entities c) (DB_ATTRIBUTE self) (h ++ [searched self])).1
  = Ok (dict_by_guid (entities last)) ∧
  ∃ pts, (get_popular_tables self num_entries h).1 = Ok pts ∧
         Forall2 (λ ent pt,
                    ∀ g, db_id_of self ent = VStr g →
                         (g ∉ guid <$> entities last →
                          pt_cluster pt = VStr "" ∧ pt_schema pt = VStr "") ∧
                         (g ∈ guid <$> entities last →
                          ∃ db, db ∈ entities last ∧ guid db = g ∧
                                pt_cluster pt = dict_get (attributes db) "clusterName" VNone ∧
                                pt_schema pt
                                = dict_get (attributes db) (NAME_ATTRIBUTE self) VNone))
           (entities c) pts.
Proof.
  intros Hs Hshape Hb. split.
  - rewrite (_get_rel_attributes_dict_run self (entities c) (DB_ATTRIBUTE self)
               (h ++ [searched self]) _ (rel_attribute_ids_ok _ _ Hshape)).
    rewrite Hb. cbn. rewrite entities_dict_of_last. reflexivity.
  - destruct (get_popular_tables_run _ num_entries _ _ _ Hs Hshape Hb) as (pts & Hpts & Hspec).
    exists pts. split; [exact Hpts|].
    eapply Forall2_impl; [exact Hspec|].
    intros ent pt (_ & _ & _ & Hdb) g Hg.
    unfold resolved_db in Hdb. rewrite Hg, entities_dict_of_last in Hdb.
    split.
    + intros Hnot%dict_by_guid_None. rewrite Hnot in Hdb. exact Hdb.
    + intros Hin.
      destruct (dict_by_guid (entities last) !! g) as [db|] eqn:Hlook.
      * destruct (dict_by_guid_Some _ _ _ Hlook) as [Hmem Hguid].
        exists db. destruct Hdb as [Hc Hsch]. repeat split; assumption.
      * apply dict_by_guid_None in Hlook. contradiction.
Qed.

Lemma only_the_last_batch_is_kept_witness :
  let self := mock_proxy (popular_driver two_batches) in
  (_get_rel_attributes_dict self (entities basic_search_collection) (DB_ATTRIBUTE self)
     ([] ++ [searched self])).1
  = Ok (dict_by_guid [other_db_entity]) ∧
  ∃ pts, (get_popular_tables self 2 []).1 = Ok pts ∧
         Forall2 (λ ent pt,
                    ∀ g, db_id_of self ent = VStr g →
                         (g ∉ guid <$> [other_db_entity] →
                          pt_cluster pt = VStr "" ∧ pt_schema pt = VStr "") ∧
                         (g ∈ guid <$> [other_db_entity] →
                          ∃ db, db ∈ [other_db_entity] ∧ guid db = g ∧
                                pt_cluster pt = dict_get (attributes db) "clusterName" VNone ∧
                                pt_schema pt
                                = dict_get (attributes db) (NAME_ATTRIBUTE self) VNone))
           (entities basic_search_collection) pts.
Proof.
  apply (only_the_last_batch_is_kept (mock_proxy (popular_driver two_batches))
           2 [] basic_search_collection
           [ {| entities := [bulk_db_entity] |} ] {| entities := [other_db_entity] |}).
  - reflexivity.
  - repeat constructor; try (eexists; vm_compute; reflexivity).
  - reflexivity.
Defined.

(** The database of the two tables arrives in the first of two batches and
    is lost: both tables come back without cluster and schema. *)
Example get_popular_tables_two_batches :
  (get_popular_tables (mock_proxy (popular_driver two_batches)) 2 []).1
  = Ok [popular_table1 "" ""; popular_table2 "" ""].
Proof. vm_compute. reflexivity. Qed.

(** ** delete_tag *)

Lemma delete_tag_returns self table_id tag h : (delete_tag self table_id tag h).1 = Ok ().
Proof.
  unfold delete_tag, try_except.
  match goal with |- context [match ?b with _ => _ end] => destruct b as [[[]|e] evs] end.
  - reflexivity.
  - destruct (except_Exception (exn_cls e)) eqn:Hc; [reflexivity | discriminate].
Qed.

Lemma delete_tag_unknown_table self table_id tag h e :
  drv_entity_guid (_driver self) h (VStr table_id) = Raise e →
  delete_tag self table_id tag h
  = (Ok (),
     [Called (entity_guid_call (VStr table_id)) (Some e);
      Logged ("Table not found. " +:+ exn_msg e) e;
      Logged ("For some reason this deletes the classification but also always return exception. "
                +:+ ("Table GUID( " +:+ table_id +:+ " ) does not exist"))
        (Exn NotFoundException ("Table GUID( " +:+ table_id +:+ " ) does not exist"))]).
Proof.
  intros Hd. unfold delete_tag, try_except.
  rewrite (bind_raise _ _ _ _ _ (_get_table_entity_raise _ _ _ _ Hd)).
  reflexivity.
Qed.

(** C9: [delete_tag] returns normally on every input; when the table
    identifier does not resolve, the NotFoundException of
    [_get_table_entity] is caught and logged like any other exception, and
    no driver call besides the failed fetch is made. *)
Theorem delete_tag_never_raises self table_id tag h :
  (delete_tag self table_id tag h).1 = Ok () ∧
  ∀ e, drv_entity_guid (_driver self) h (VStr table_id) = Raise e →
       (delete_tag self table_id tag h).2
       = [Called (entity_guid_call (VStr table_id)) (Some e);
          Logged ("Table not found. " +:+ exn_msg e) e;
          Logged ("For some reason this deletes the classification but also always return exception. "
                    +:+ ("Table GUID( " +:+ table_id +:+ " ) does not exist"))
            (Exn NotFoundException ("Table GUID( " +:+ table_id +:+ " ) does not exist"))].
Proof.
  split; [apply delete_tag_returns|].
  intros e Hd. rewrite (delete_tag_unknown_table _ _ _ _ _ Hd). reflexivity.
Qed.

Lemma delete_tag_never_raises_witness :
  let self := mock_proxy (mock_driver (Raise Boom) (Raise Boom) (Raise Boom) (Ok ())) in
  (delete_tag self table_id "TAG" []).1 = Ok () ∧
  (delete_tag self table_id "TAG" []).2
  = [Called (entity_guid_call (VStr table_id)) (Some Boom);
     Logged "Table not found. Boom!" Boom;
     Logged ("For some reason this deletes the classification but also always return exception. "
               +:+ ("Table GUID( " +:+ table_id +:+ " ) does not exist"))
       (Exn NotFoundException ("Table GUID( " +:+ table_id +:+ " ) does not exist"))].
Proof.
  destruct (delete_tag_never_raises
              (mock_proxy (mock_driver (Raise Boom) (Raise Boom) (Raise Boom) (Ok ())))
              table_id "TAG" []) as [Hok Hlog].
  split; [exact Hok|]. apply (Hlog Boom). reflexivity.
Defined.

Example test_delete_tag :
  delete_tag (mock_proxy (mock_driver (Ok mocked_table_entity) (Raise Boom) (Raise Boom) (Ok ())))
    table_id "TAG" []
  = (Ok (),
     [Called (entity_guid_call (VStr table_id)) None;
      Called (entity_guid_call (VStr table_id)) None;
      Called (classifications_delete_call mocked_table_entity "TAG") None]).
Proof. vm_compute. reflexivity. Qed.

(** The outcome and the events of a sequence and of a [try], from those
    of their parts. *)
Lemma bind_fst {A B} (m : M A) (f : A → M B) h :
  ((m ≫= f) h).1
  = match (m h).1 with Ok a => (f a (h ++ (m h).2)).1 | Raise e => Raise e end.
Proof.
  unfold mbind, M_bind. destruct (m h) as [[a|e] evs]; cbn; [|reflexivity].
  destruct (f a (h ++ evs)); reflexivity.
Qed.

Lemma bind_snd {A B} (m : M A) (f : A → M B) h :
  ((m ≫= f) h).2
  = (m h).2 ++ match (m h).1 with Ok a => (f a (h ++ (m h).2)).2 | Raise _ => [] end.
Proof.
  unfold mbind, M_bind. destruct (m h) as [[a|e] evs]; cbn; [|rewrite app_nil_r; reflexivity].
  destruct (f a (h ++ evs)); reflexivity.
Qed.

Lemma try_except_fst {A} (body : M A) handled handler h :
  (try_except body handled handler h).1
  = match (body h).1 with
    | Ok a => Ok a
    | Raise e => if handled (exn_cls e) then (handler e (h ++ (body h).2)).1 else Raise e
    end.
Proof.
  unfold try_except. destruct (body h) as [[a|e] evs]; cbn; [reflexivity|].
  destruct (handled (exn_cls e)); [|reflexivity].
  destruct (handler e (h ++ evs)); reflexivity.
Qed.

Lemma try_except_snd {A} (body : M A) handled handler h :
  (try_except body handled handler h).2
  = (body h).2 ++ match (body h).1 with
                  | Ok a => []
                  | Raise e =>
                      if handled (exn_cls e) then (handler e (h ++ (body h).2)).2 else []
                  end.
Proof.
  unfold try_except. destruct (body h) as [[a|e] evs]; cbn; [rewrite app_nil_r; reflexivity|].
  destruct (handled (exn_cls e)); [|rewrite app_nil_r; reflexivity].
  destruct (handler e (h ++ evs)); reflexivity.
Qed.

Lemma driver_call_fst {A} c (answer : list event → result A) h :
  (driver_call c answer h).1 = answer h.
Proof. reflexivity. Qed.

Lemma driver_call_snd {A} c (answer : list event → result A) h :
  (driver_call c answer h).2 = [Called c (raised_of (answer h))].
Proof. reflexivity. Qed.

Lemma raised_of_Some {A} (r : result A) e : raised_of r = Some e → r = Raise e.
Proof. destruct r; cbn; congruence. Qed.

(** The events of the fetch helpers are the fetch and, on failure, a log
    record. *)
Lemma _get_table_entity_events self table_id h ev :
  ev ∈ (_get_table_entity self table_id h).2 →
  (∃ r, ev = Called (entity_guid_call (VStr table_id)) r) ∨ (∃ msg e, ev = Logged msg e).
Proof.
  destruct (drv_entity_guid (_driver self) h (VStr table_id)) as [obj|e] eqn:Hd.
  - rewrite (_get_table_entity_ok _ _ _ _ Hd). cbn.
    intros ->%list_elem_of_singleton. left. eexists. reflexivity.
  - rewrite (_get_table_entity_raise _ _ _ _ Hd). cbn.
    intros [->|[->|[]%elem_of_nil]%elem_of_cons]%elem_of_cons.
    + left. eexists. reflexivity.
    + right. eexists _, _. reflexivity.
Qed.

(** The exception of the classification delete is the one [delete_tag]
    logs. *)
Lemma delete_tag_logs_delete_failure self table_id tag h obj e :
  Called (classifications_delete_call obj tag) (Some e) ∈ (delete_tag self table_id tag h).2 →
  ∃ msg, Logged msg e ∈ (delete_tag self table_id tag h).2.
Proof.
  unfold delete_tag. rewrite try_except_snd.
  set (body := _get_table_entity self table_id ≫= _).
  assert (Called (classifications_delete_call obj tag) (Some e) ∈ (body h).2 →
          (body h).1 = Raise e) as Hbody.
  { unfold body. rewrite bind_fst, bind_snd.
    intros [Hin|Hin]%elem_of_app.
    { apply _get_table_entity_events in Hin as [[r [=]]|(msg & e' & [=])]. }
    destruct ((_get_table_entity self table_id h).1) as [o|e0]; [|apply elem_of_nil in Hin as []].
    revert Hin. rewrite bind_fst, bind_snd. unfold lift at 1 2 3 4. cbn [fst snd app].
    destruct (dict_getitem (entity o) "guid") as [g|e0]; [|intros []%elem_of_nil].
    rewrite bind_fst, bind_snd, !driver_call_fst, !driver_call_snd.
    intros [[=]%list_elem_of_singleton|Hin]%elem_of_app.
    destruct (drv_entity_guid _ _ g) as [guid_entity|e0]; [|apply elem_of_nil in Hin as []].
    apply list_elem_of_singleton in Hin. injection Hin as _ Hr.
    symmetry in Hr. apply raised_of_Some in Hr. exact Hr. }
  intros [Hin|Hin]%elem_of_app.
  - rewrite (Hbody Hin). cbn. eexists. apply elem_of_app. right. constructor.
  - destruct ((body h).1) as [[]|e0]; [apply elem_of_nil in Hin as []|].
    cbn in Hin. apply list_elem_of_singleton in Hin. discriminate Hin.
Qed.

(** ** Which operations let a backend failure through *)

Lemma backend_raised_app evs1 evs2 :
  backend_raised (evs1 ++ evs2) ↔ backend_raised evs1 ∨ backend_raised evs2.
Proof.
  unfold backend_raised. split.
  - intros (c & e & [H|H]%elem_of_app); [left | right]; eauto.
  - intros [(c & e & H) | (c & e & H)]; exists c, e; apply elem_of_app; auto.
Qed.

Lemma backend_raised_nil : ¬ backend_raised [].
Proof. intros (c & e & H). apply elem_of_nil in H. exact H. Qed.

Lemma propagates_ret {A} (a : A) : propagates (mret a).
Proof. intros h H. destruct (backend_raised_nil H). Qed.

Lemma propagates_lift {A} (r : result A) : propagates (lift r).
Proof. intros h H. destruct (backend_raised_nil H). Qed.

Lemma propagates_raise {A} e : propagates (@raise A e).
Proof. intros h H. reflexivity. Qed.

Lemma propagates_driver_call {A} c (answer : list event → result A) :
  propagates (driver_call c answer).
Proof.
  intros h (c' & e & H). rewrite driver_call_snd in H. rewrite driver_call_fst.
  apply list_elem_of_singleton in H. injection H as _ Hr.
  symmetry in Hr. apply raised_of_Some in Hr. rewrite Hr. reflexivity.
Qed.

Lemma propagates_bind {A B} (m : M A) (f : A → M B) :
  propagates m → (∀ a, propagates (f a)) → propagates (m ≫= f).
Proof.
  intros Hm Hf h. rewrite bind_fst, bind_snd.
  intros [H|H]%backend_raised_app.
  - specialize (Hm h H). destruct ((m h).1); [discriminate | reflexivity].
  - destruct ((m h).1) as [a|e]; [apply Hf; exact H | reflexivity].
Qed.

(** A [try] whose handler raises in turn hides no failure of its body. *)
Lemma propagates_try_except {A} (body : M A) handled handler :
  propagates body →
  (∀ e h, is_ok (handler e h).1 = false) →
  propagates (try_except body handled handler).
Proof.
  intros Hb Hh h. rewrite try_except_fst, try_except_snd.
  intros [H|H]%backend_raised_app.
  - specialize (Hb h H). destruct ((body h).1) as [a|e]; [discriminate|].
    destruct (handled (exn_cls e)); [apply Hh | reflexivity].
  - destruct ((body h).1) as [a|e]; [destruct (backend_raised_nil H)|].
    destruct (handled (exn_cls e)); [apply Hh | reflexivity].
Qed.

Ltac propagation :=
  repeat first
    [ apply propagates_ret
    | apply propagates_lift
    | apply propagates_raise
    | apply propagates_driver_call
    | apply propagates_try_except; [ | intros ? ?; reflexivity ]
    | apply propagates_bind; [ | intros ? ] ].

Lemma propagates_get_table_entity self table_id : propagates (_get_table_entity self table_id).
Proof. unfold _get_table_entity. propagation. Qed.

Lemma propagates_get_column self column_id : propagates (_get_column self column_id).
Proof. unfold _get_column. propagation. Qed.

(** C6: an exception of the classification delete does not leave
    [delete_tag]: the call returns normally and the exception is in the
    log; and every other operation of the proxy raises whenever one of its
    driver calls raised. *)
Theorem delete_tag_alone_suppresses self :
  (∀ table_id tag h,
     (delete_tag self table_id tag h).1 = Ok () ∧
     ∀ obj e,
       Called (classifications_delete_call obj tag) (Some e)
         ∈ (delete_tag self table_id tag h).2 →
       ∃ msg, Logged msg e ∈ (delete_tag self table_id tag h).2) ∧
  (∀ user_id, propagates (get_user_detail user_id)) ∧
  (∀ table_id table_info, propagates (get_table self table_id table_info)) ∧
  (∀ table_id owner, propagates (delete_owner table_id owner)) ∧
  (∀ table_id owner, propagates (add_owner self table_id owner)) ∧
  (∀ table_id, propagates (get_table_description self table_id)) ∧
  (∀ table_id description, propagates (put_table_description self table_id description)) ∧
  (∀ table_id tag, propagates (add_tag self table_id tag)) ∧
  (∀ column_id description, propagates (put_column_description self column_id description)) ∧
  (∀ column_id, propagates (get_column_description self column_id)) ∧
  (∀ num_entries, propagates (get_popular_tables self num_entries)) ∧
  propagates get_latest_updated_ts ∧
  propagates (get_tags self) ∧
  (∀ user_email relation_type,
     propagates (get_table_by_user_relation user_email relation_type)) ∧
  (∀ table_id user_email relation_type,
     propagates (add_table_relation_by_user table_id user_email relation_type)) ∧
  (∀ table_id user_email relation_type,
     propagates (delete_table_relation_by_user table_id user_email relation_type)) ∧
  (∀ params, propagates (_get_ids_from_basic_search self params)) ∧
  (∀ ents attribute, propagates (_get_rel_attributes_dict self ents attribute)) ∧
  (∀ table_id, propagates (_get_table_entity self table_id)) ∧
  (∀ column_id, propagates (_get_column self column_id)).
Proof.
  split.
  { intros table_id tag h. split; [apply delete_tag_returns|].
    intros obj e. apply delete_tag_logs_delete_failure. }
  repeat split; intros;
    unfold get_user_detail, get_table, delete_owner, add_owner, get_table_description,
      put_table_description, add_tag, put_column_description, get_column_description,
      get_popular_tables, get_latest_updated_ts, get_tags, get_table_by_user_relation,
      add_table_relation_by_user, delete_table_relation_by_user,
      _get_ids_from_basic_search, _get_rel_attributes_dict;
    try apply propagates_get_table_entity; try apply propagates_get_column;
    propagation;
    try apply propagates_get_table_entity; try apply propagates_get_column.
Qed.

Example test_delete_tag_quirk :
  delete_tag (mock_proxy quirky_driver) table_id "TAG" []
  = (Ok (),
     [Called (entity_guid_call (VStr table_id)) None;
      Called (entity_guid_call (VStr table_id)) None;
      Called (classifications_delete_call mocked_table_entity "TAG") (Some Boom);
      Logged "For some reason this deletes the classification but also always return exception. Boom!"
        Boom]).
Proof. vm_compute. reflexivity. Qed.

(** With a backend whose classification delete always reports a failure,
    [delete_tag] returns and the failure is in its log. *)
Lemma delete_tag_alone_suppresses_witness :
  (delete_tag (mock_proxy quirky_driver) table_id "TAG" []).1 = Ok () ∧
  Called (classifications_delete_call mocked_table_entity "TAG") (Some Boom)
    ∈ (delete_tag (mock_proxy quirky_driver) table_id "TAG" []).2 ∧
  ∃ msg, Logged msg Boom ∈ (delete_tag (mock_proxy quirky_driver) table_id "TAG" []).2.
Proof.
  destruct (delete_tag_alone_suppresses (mock_proxy quirky_driver)) as [Hdel _].
  destruct (Hdel table_id "TAG" []) as [Hok Hlog].
  assert (Called (classifications_delete_call mocked_table_entity "TAG") (Some Boom)
            ∈ (delete_tag (mock_proxy quirky_driver) table_id "TAG" []).2) as Hin.
  { rewrite test_delete_tag_quirk. cbn [snd]. rewrite !elem_of_cons. auto. }
  split; [exact Hok|]. split; [exact Hin|].
  exact (Hlog mocked_table_entity Boom Hin).
Defined.

(** The same failing backend stops [add_tag] and [put_table_description]. *)
Example add_tag_propagates :
  (add_tag (mock_proxy quirky_driver) table_id "TAG" []).1 = Raise Boom.
Proof. vm_compute. reflexivity. Qed.

Example put_table_description_propagates :
  (put_table_description (mock_proxy quirky_driver) table_id "DOESNT_MATTER" []).1 = Raise Boom.
Proof. vm_compute. reflexivity. Qed.

(** ** put_column_description *)

Lemma _get_column_events self column_id h ev :
  ev ∈ (_get_column self column_id h).2 →
  (∃ r, ev = Called (entity_guid_call (VStr column_id)) r) ∨ (∃ msg e, ev = Logged msg e).
Proof.
  destruct (drv_entity_guid (_driver self) h (VStr column_id)) as [obj|e] eqn:Hd.
  - rewrite (_get_column_ok _ _ _ _ Hd). cbn.
    intros ->%list_elem_of_singleton. left. eexists. reflexivity.
  - rewrite (_get_column_raise _ _ _ _ Hd). cbn.
    intros [->|[->|[]%elem_of_nil]%elem_of_cons]%elem_of_cons.
    + left. eexists. reflexivity.
    + right. eexists _, _. reflexivity.
Qed.

(** A write scoped to an attribute leaves the other stored attributes as
    they are, whatever they are. *)
Lemma backend_write_frame stored obj a k :
  k ≠ a → backend_write stored obj (Some a) !! k = stored !! k.
Proof.
  intros Hk. unfold backend_write.
  destruct (entity obj !! ATTRS_KEY) as [[]|]; try reflexivity.
  apply lookup_partial_alter_ne. congruence.
Qed.

Lemma set_attribute_description obj attrs description :
  entity obj !! ATTRS_KEY = Some (VDict attrs) →
  set_attribute obj "description" (VStr description) = Ok (described obj attrs description).
Proof.
  intros Ha. unfold set_attribute, dict_getitem. rewrite Ha. reflexivity.
Qed.

Example test_put_column_description :
  put_column_description
    (mock_proxy (mock_driver (Ok mocked_column_entity) (Raise Boom) (Raise Boom) (Ok ())))
    column_id "DOESNT_MATTER" []
  = (Ok (),
     [Called (entity_guid_call (VStr column_id)) None;
      Called (update_call
                (described mocked_column_entity
                   (dict [("qualifiedName", VStr "column@name");
                          ("type", VStr "Managed");
                          ("description", VStr "column description");
                          ("position", VInt 1)])
                   "DOESNT_MATTER")
                (Some "description")) None]).
Proof. vm_compute. reflexivity. Qed.

(** C7: every update that [put_column_description] sends is scoped to the
    'description' attribute, so that it leaves every other attribute the
    backend holds for the column as it is; and when the column resolves to
    an entity with an attributes section, exactly one such update is sent,
    for the fetched entity with its description replaced and its other
    attributes untouched. *)
Theorem put_column_description_writes_description_only
    self column_id description h :
  (∀ obj attribute r,
     Called (update_call obj attribute) r
       ∈ (put_column_description self column_id description h).2 →
     attribute = Some "description" ∧
     ∀ stored k, k ≠ "description" → backend_write stored obj attribute !! k = stored !! k) ∧
  (∀ obj attrs,
     drv_entity_guid (_driver self) h (VStr column_id) = Ok obj →
     entity obj !! ATTRS_KEY = Some (VDict attrs) →
     (put_column_description self column_id description h).2
     = [Called (entity_guid_call (VStr column_id)) None;
        Called (update_call (described obj attrs description) (Some "description"))
          (raised_of
             (drv_update (_driver self) (h ++ [Called (entity_guid_call (VStr column_id)) None])
                (described obj attrs description) (Some "description")))] ∧
     (∀ k, k ≠ "description" →
           (<["description" := VStr description]> attrs) !! k = attrs !! k) ∧
     ∀ stored,
       backend_write stored (described obj attrs description) (Some "description")
       = <["description" := VStr description]> stored).
Proof.
  split.
  - intros obj attribute r. unfold put_column_description. rewrite bind_snd.
    intros [Hin|Hin]%elem_of_app.
    { apply _get_column_events in Hin as [[r' [=]]|(msg & e' & [=])]. }
    destruct ((_get_column self column_id h).1) as [o|e0]; [|apply elem_of_nil in Hin as []].
    revert Hin. rewrite bind_snd. unfold lift at 1 2 3. cbn [fst snd app].
    destruct (set_attribute o "description" (VStr description)) as [o'|e0];
      [|intros []%elem_of_nil].
    rewrite driver_call_snd. intros [= -> -> _]%list_elem_of_singleton.
    split; [reflexivity|]. intros stored k Hk. apply backend_write_frame, Hk.
  - intros obj attrs Hd Ha. split; [|split].
    + unfold put_column_description.
      rewrite bind_snd, (_get_column_ok _ _ _ _ Hd). cbn [fst snd].
      rewrite bind_snd. unfold lift at 1 2 3. cbn [fst snd].
      rewrite (set_attribute_description _ _ _ Ha), app_nil_r. reflexivity.
    + intros k Hk. apply lookup_insert_ne. congruence.
    + intros stored. unfold backend_write, described. cbn [entity].
      rewrite lookup_insert_eq, lookup_insert_eq. reflexivity.
Qed.

Lemma put_column_description_writes_description_only_witness :
  let self := mock_proxy (mock_driver (Ok mocked_column_entity) (Raise Boom)
                            (Raise Boom) (Ok ())) in
  let attrs := dict [("qualifiedName", VStr "column@name");
                     ("type", VStr "Managed");
                     ("description", VStr "column description");
                     ("position", VInt 1)] in
  (put_column_description self column_id "DOESNT_MATTER" []).2
  = [Called (entity_guid_call (VStr column_id)) None;
     Called (update_call (described mocked_column_entity attrs "DOESNT_MATTER")
               (Some "description")) None] ∧
  (∀ k, k ≠ "description" →
        (<["description" := VStr "DOESNT_MATTER"]> attrs) !! k = attrs !! k) ∧
  ∀ stored,
    backend_write stored (described mocked_column_entity attrs "DOESNT_MATTER")
      (Some "description")
    = <["description" := VStr "DOESNT_MATTER"]> stored.
Proof.
  destruct (put_column_description_writes_description_only
              (mock_proxy (mock_driver (Ok mocked_column_entity) (Raise Boom)
                             (Raise Boom) (Ok ())))
              column_id "DOESNT_MATTER" []) as [_ Hsent].
  apply (Hsent mocked_column_entity).
  - reflexivity.
  - vm_compute. reflexivity.
Defined.

(** By contrast, [put_table_description] sends the whole entity. *)
Example test_put_table_description :
  ∃ obj, (put_table_description
            (mock_proxy (mock_driver (Ok mocked_table_entity) (Raise Boom) (Raise Boom) (Ok ())))
            table_id "DOESNT_MATTER" []).2
         = [Called (entity_guid_call (VStr table_id)) None;
            Called (update_call obj None) None].
Proof. eexists. vm_compute. reflexivity. Qed.

(** ** Further properties of get_table *)

Lemma dict_getitem_error d k e : dict_getitem d k = Raise e → exn_cls e = KeyError.
Proof. unfold dict_getitem. destruct (d !! k); [discriminate|]. intros [= <-]. reflexivity. Qed.

Lemma py_get_error v k e : py_get v k = Raise e → exn_cls e = AttributeError.
Proof. destruct v; cbn; try discriminate; intros [= <-]; reflexivity. Qed.

Lemma py_iter_error v e : py_iter v = Raise e → exn_cls e = TypeError.
Proof. destruct v; cbn; try discriminate; intros [= <-]; reflexivity. Qed.

Lemma py_getitem_error v k e : py_getitem v k = Raise e → translation_error (exn_cls e).
Proof.
  destruct v; cbn; try (intros [= <-]; right; right; reflexivity).
  intros H%dict_getitem_error. left. exact H.
Qed.

Lemma dict_getitem_value_error {A} (d : gmap string A) key e :
  dict_getitem_value d key = Raise e → translation_error (exn_cls e).
Proof.
  destruct key; cbn; try (intros [= <-]; (left; reflexivity) || (right; right; reflexivity)).
  destruct (d !! s); [discriminate|]. intros [= <-]. left. reflexivity.
Qed.

Lemma for_each_error {A B} (f : A → result B) l e :
  for_each f l = Raise e → ∃ x, x ∈ l ∧ f x = Raise e.
Proof.
  induction l as [|x l IH]; cbn [for_each]; [discriminate|].
  destruct (f x) as [y|e'] eqn:Hx; cbn [mbind result_bind].
  - destruct (for_each f l) as [ys|e'] eqn:Hl; cbn [mbind result_bind]; [discriminate|].
    intros [= ->]. destruct (IH eq_refl) as (x' & Hin & Hx').
    exists x'. split; [apply elem_of_cons; right; exact Hin | exact Hx'].
  - intros [= ->]. exists x. split; [apply elem_of_cons; left; reflexivity | exact Hx].
Qed.

(** Peels the first step off a failing sequence of the translation. *)
Ltac failing_step :=
  match goal with
  | |- mbind _ ?r = Raise _ → _ =>
      let E := fresh "E" in
      destruct r eqn:E; cbn [mbind result_bind];
      [ | let H := fresh in
          intros H; injection H as ->;
          first [ apply dict_getitem_error in E; left; exact E
                | apply py_get_error in E; right; left; exact E
                | apply py_iter_error in E; right; right; exact E
                | apply py_getitem_error in E; exact E
                | apply dict_getitem_value_error in E; exact E
                | idtac ] ]
  end.

Lemma tag_of_error classification e :
  tag_of classification = Raise e → translation_error (exn_cls e).
Proof. unfold tag_of. failing_step. discriminate. Qed.

Lemma column_of_error self table_entity column e :
  column_of self table_entity column = Raise e → translation_error (exn_cls e).
Proof.
  unfold column_of. repeat failing_step; try discriminate.
  destruct (truthy _); [discriminate|].
  apply py_get_error in E5. right; left; exact E5.
Qed.

Lemma table_of_error self table_entity table_info e :
  table_of self table_entity table_info = Raise e → translation_error (exn_cls e).
Proof.
  unfold table_of. repeat failing_step; try discriminate.
  all: match goal with
       | H : for_each tag_of _ = Raise _ |- _ =>
           apply for_each_error in H as (x & _ & Hx); exact (tag_of_error _ _ Hx)
       | H : for_each (column_of _ _) _ = Raise _ |- _ =>
           apply for_each_error in H as (x & _ & Hx); exact (column_of_error _ _ _ _ Hx)
       end.
Qed.

(** What a successful translation has read. *)
Lemma table_of_inv self obj table_info t :
  table_of self obj table_info = Ok t →
  ∃ attrs rel_attrs classifications cols,
    entity obj !! ATTRS_KEY = Some (VDict attrs) ∧
    entity obj !! REL_ATTRS_KEY = Some (VDict rel_attrs) ∧
    py_iter (py_or (dict_get (entity obj) "classifications" VNone) (VList []))
    = Ok classifications ∧
    for_each tag_of classifications = Ok (tags t) ∧
    py_iter (py_or (dict_get rel_attrs "columns" VNone) (VList [])) = Ok cols ∧
    for_each (column_of self obj) cols = Ok (columns t) ∧
    description t = dict_get attrs "description" VNone ∧
    owners t = [ {| email := dict_get attrs "owner" VNone |} ] ∧
    last_updated_timestamp t = dict_get (entity obj) "updateTime" VNone.
Proof.
  unfold table_of.
  repeat match goal with
         | |- context [mbind _ ?r] =>
             let H := fresh "E" in destruct r eqn:H; cbn [mbind result_bind];
             [|discriminate]
         end.
  intros [= <-]. cbn.
  apply dict_getitem_Ok in E, E0.
  destruct a; try discriminate. destruct a0; try discriminate.
  cbn in E3, E10, E11. injection E3 as <-. injection E10 as <-. injection E11 as <-.
  eexists _, _, _, _. repeat split; eassumption.
Qed.

(** X1: whatever happens, [get_table] makes one driver call, the fetch of
    the table entity: the columns are read from the entities the fetch
    referred to, never fetched one by one. *)
Theorem get_table_one_driver_call self table_id table_info h :
  List.filter is_driver_call (get_table self table_id table_info h).2
  = [Called (entity_guid_call (VStr table_id))
       (raised_of (drv_entity_guid (_driver self) h (VStr table_id)))].
Proof.
  unfold get_table. rewrite bind_snd.
  destruct (drv_entity_guid (_driver self) h (VStr table_id)) as [obj|e] eqn:Hd.
  - rewrite (_get_table_entity_ok _ _ _ _ Hd). cbn [fst snd].
    rewrite try_except_snd. unfold lift at 1 2 3. cbn [fst snd].
    destruct (table_of self obj table_info) as [t|e]; [reflexivity|].
    destruct (except_KeyError (exn_cls e)); reflexivity.
  - rewrite (_get_table_entity_raise _ _ _ _ Hd). reflexivity.
Qed.

(** X2: [get_table] fails with NotFoundException, BadRequest,
    AttributeError or TypeError and with nothing else: no KeyError and no
    exception of the driver leaves it. It is NotFoundException exactly when
    the fetch raised. *)
Theorem get_table_error_classes self table_id table_info h e :
  (get_table self table_id table_info h).1 = Raise e →
  (exn_cls e = NotFoundException ∨ exn_cls e = BadRequest ∨
   exn_cls e = AttributeError ∨ exn_cls e = TypeError) ∧
  (exn_cls e = NotFoundException ↔
   ∃ e0, drv_entity_guid (_driver self) h (VStr table_id) = Raise e0).
Proof.
  unfold get_table. rewrite bind_fst.
  destruct (drv_entity_guid (_driver self) h (VStr table_id)) as [obj|e0] eqn:Hd.
  - rewrite (_get_table_entity_ok _ _ _ _ Hd). cbn [fst snd].
    rewrite try_except_fst. unfold lift at 1 2. cbn [fst snd].
    destruct (table_of self obj table_info) as [t|e1] eqn:Ht; [discriminate|].
    pose proof (table_of_error _ _ _ _ Ht) as [Hc|[Hc|Hc]]; rewrite Hc; cbn.
    + intros [= <-]. cbn. split; [auto|]. split; [discriminate | intros [? [=]]].
    + intros [= <-]. rewrite Hc. split; [auto|]. split; [discriminate | intros [? [=]]].
    + intros [= <-]. rewrite Hc. split; [auto|]. split; [discriminate | intros [? [=]]].
  - rewrite (_get_table_entity_raise _ _ _ _ Hd). cbn. intros [= <-]. cbn.
    split; [auto|]. split; [eauto | reflexivity].
Qed.

Lemma get_table_error_classes_witness :
  let e := Exn BadRequest
             ("Some of the required attributes are missing in : ( " +:+ table_id +:+ " )") in
  (exn_cls e = NotFoundException ∨ exn_cls e = BadRequest ∨
   exn_cls e = AttributeError ∨ exn_cls e = TypeError) ∧
  (exn_cls e = NotFoundException ↔
   ∃ e0, drv_entity_guid
           (_driver (mock_proxy (mock_driver (Ok entity_missing_info) (Raise Boom)
                                   (Raise Boom) (Ok ()))))
           [] (VStr table_id) = Raise e0).
Proof.
  apply (get_table_error_classes
           (mock_proxy (mock_driver (Ok entity_missing_info) (Raise Boom) (Raise Boom) (Ok ())))
           table_id ∅ []).
  vm_compute. reflexivity.
Defined.

Lemma column_of_resolved self obj ref g col_entity col_attrs :
  ref !! "guid" = Some (VStr g) →
  referredEntities obj !! g = Some (VDict col_entity) →
  col_entity !! ATTRS_KEY = Some (VDict col_attrs) →
  column_of self obj (VDict ref) = Ok (column_from_attributes self col_attrs).
Proof.
  intros Hg Hce Hca.
  unfold column_of, py_getitem, dict_getitem, dict_getitem_value, column_from_attributes, py_or.
  rewrite Hg. cbn [mbind result_bind]. rewrite Hce. cbn [mbind result_bind].
  rewrite Hca. cbn [mbind result_bind py_get].
  destruct (truthy (dict_get col_attrs "type" VNone)); reflexivity.
Qed.

Lemma column_of_dangling self obj column :
  dangling_column obj column → ∃ k, column_of self obj column = Raise (Exn KeyError k).
Proof.
  intros (ref & -> & [Hg | (g & Hg & [Hce | (ce & Hce & Hca)])]);
    unfold column_of, py_getitem, dict_getitem, dict_getitem_value;
    rewrite Hg; cbn [mbind result_bind]; [eexists; reflexivity| |];
    rewrite Hce; cbn [mbind result_bind]; [eexists; reflexivity|].
  rewrite Hca. eexists. reflexivity.
Qed.

Lemma for_each_stops {A B} (f : A → result B) before x after e :
  Forall (λ y, ∃ z, f y = Ok z) before → f x = Raise e →
  for_each f (before ++ x :: after) = Raise e.
Proof.
  intros Hb Hx. induction Hb as [|y before [z Hy] _ IH]; cbn [for_each app].
  - rewrite Hx. reflexivity.
  - rewrite Hy. cbn [mbind result_bind]. rewrite IH. reflexivity.
Qed.

(** X3: a table whose two sections are there but one of whose column
    references cannot be followed gives no Table at all: [get_table] raises
    BadRequest, after the one fetch and one log record. *)
Theorem get_table_dangling_column_raises_BadRequest
    self table_id table_info h obj attrs rel_attrs cls before column after :
  drv_entity_guid (_driver self) h (VStr table_id) = Ok obj →
  entity obj !! ATTRS_KEY = Some (VDict attrs) →
  entity obj !! REL_ATTRS_KEY = Some (VDict rel_attrs) →
  py_or (dict_get (entity obj) "classifications" VNone) (VList []) = VList (VDict <$> cls) →
  dict_get rel_attrs "columns" VNone = VList (before ++ column :: after) →
  Forall (resolves_column obj) before →
  dangling_column obj column →
  raises (get_table self table_id table_info h).1 BadRequest ∧
  ∃ msg ex, (get_table self table_id table_info h).2
            = [Called (entity_guid_call (VStr table_id)) None; Logged msg ex].
Proof.
  intros Hd Ha Hr Hcls Hcols Hbefore Hdangling.
  destruct (column_of_dangling self obj column Hdangling) as [k Hk].
  assert (table_of self obj table_info = Raise (Exn KeyError k)) as Ht.
  { unfold table_of, dict_getitem. rewrite Ha, Hr. cbn [mbind result_bind].
    rewrite Hcls. cbn [py_iter mbind result_bind]. rewrite for_each_tag_of.
    cbn [mbind result_bind py_get]. rewrite Hcols.
    replace (py_or (VList (before ++ column :: after)) (VList []))
      with (VList (before ++ column :: after))
      by (unfold py_or; destruct before; reflexivity).
    cbn [py_iter mbind result_bind].
    rewrite (for_each_stops (column_of self obj) before column after (Exn KeyError k));
      [reflexivity | | exact Hk].
    eapply Forall_impl; [exact Hbefore|]. intros c. apply column_of_resolves. }
  split; [exact (get_table_KeyError _ _ _ _ _ _ Hd Ht)|].
  unfold get_table. rewrite bind_snd, (_get_table_entity_ok _ _ _ _ Hd). cbn [fst snd].
  rewrite try_except_snd. unfold lift at 1 2 3. cbn [fst snd]. rewrite Ht.
  eexists _, _. reflexivity.
Qed.

Lemma get_table_dangling_column_witness :
  let self := mock_proxy (mock_driver (Ok entity_dangling_column) (Raise Boom)
                            (Raise Boom) (Ok ())) in
  raises (get_table self table_id test_table_info []).1 BadRequest ∧
  ∃ msg ex, (get_table self table_id test_table_info []).2
            = [Called (entity_guid_call (VStr table_id)) None; Logged msg ex].
Proof.
  apply (get_table_dangling_column_raises_BadRequest
           (mock_proxy (mock_driver (Ok entity_dangling_column) (Raise Boom)
                          (Raise Boom) (Ok ())))
           table_id test_table_info [] entity_dangling_column entity1_attributes
           (dict [("columns",
                   VList [test_column; VDict (dict [("guid", VStr "no-such-column")])])])
           [dict [("typeName", VStr "PII_DATA"); ("name", VStr "PII_DATA")]]
           [test_column] (VDict (dict [("guid", VStr "no-such-column")])) []).
  - reflexivity.
  - vm_compute. reflexivity.
  - vm_compute. reflexivity.
  - vm_compute. reflexivity.
  - vm_compute. reflexivity.
  - constructor; [|constructor]. eexists _, _, _, _. repeat split; vm_compute; reflexivity.
  - eexists. split; [reflexivity|]. right. eexists. split; [vm_compute; reflexivity|].
    left. vm_compute. reflexivity.
Defined.

(** X4: the naming context is required as well: for a well-formed entity,
    a [table_info] without one of 'entity', 'cluster', 'db' and 'name'
    makes [get_table] raise BadRequest. *)
Theorem get_table_incomplete_table_info_raises_BadRequest
    self table_id table_info h obj cls cols k :
  drv_entity_guid (_driver self) h (VStr table_id) = Ok obj →
  well_formed_entity obj cls cols →
  k ∈ ["entity"; "cluster"; "db"; "name"] →
  table_info !! k = None →
  raises (get_table self table_id table_info h).1 BadRequest.
Proof.
  intros Hd ([attrs Ha] & (rel_attrs & Hr & Hcols) & Hcls & Hres) Hk Hmiss.
  destruct (for_each_succeeds (column_of self obj) cols) as [cs Hcs].
  { eapply Forall_impl; [exact Hres|]. intros c Hc. apply column_of_resolves, Hc. }
  assert (∃ k', table_of self obj table_info = Raise (Exn KeyError k')) as [k' Ht].
  { unfold table_of, dict_getitem. rewrite Ha, Hr. cbn [mbind result_bind].
    rewrite Hcls. cbn [py_iter mbind result_bind]. rewrite for_each_tag_of.
    cbn [mbind result_bind py_get]. rewrite Hcols. cbn [py_iter mbind result_bind].
    rewrite Hcs. cbn [mbind result_bind].
    rewrite !elem_of_cons in Hk.
    destruct (table_info !! "entity") eqn:H1; [|eexists; reflexivity].
    destruct (table_info !! "cluster") eqn:H2; [|eexists; reflexivity].
    destruct (table_info !! "db") eqn:H3; [|eexists; reflexivity].
    destruct (table_info !! "name") eqn:H4; [|eexists; reflexivity].
    destruct Hk as [->|[->|[->|[->|[]%elem_of_nil]]]]; congruence. }
  exact (get_table_KeyError _ _ _ _ _ _ Hd Ht).
Qed.

Lemma get_table_incomplete_table_info_witness :
  raises
    (get_table (mock_proxy (mock_driver (Ok mocked_table_entity) (Raise Boom)
                              (Raise Boom) (Ok ())))
       table_id (delete "db" test_table_info) []).1
    BadRequest.
Proof.
  apply (get_table_incomplete_table_info_raises_BadRequest
           (mock_proxy (mock_driver (Ok mocked_table_entity) (Raise Boom) (Raise Boom) (Ok ())))
           table_id (delete "db" test_table_info) [] mocked_table_entity
           [dict [("typeName", VStr "PII_DATA"); ("name", VStr "PII_DATA")]]
           [test_column] "db").
  - reflexivity.
  - split; [eexists; vm_compute; reflexivity|].
    split; [eexists; split; vm_compute; reflexivity|].
    split; [vm_compute; reflexivity|].
    constructor; [|constructor].
    eexists _, _, _, _. repeat split; vm_compute; reflexivity.
  - rewrite !elem_of_cons. auto.
  - vm_compute. reflexivity.
Defined.

(** X5: the column at a position of the returned Table is made of the
    attributes of the entity that the reference at that position of the
    'columns' list names: its name is the NAME_ATTRIBUTE, its sort order
    the 'position', and its type the 'type' attribute, or the 'dataType'
    attribute when 'type' is absent, null or empty. *)
Theorem get_table_column_content
    self table_id table_info h obj t rel_attrs cols i ref g col_entity col_attrs :
  drv_entity_guid (_driver self) h (VStr table_id) = Ok obj →
  (get_table self table_id table_info h).1 = Ok t →
  entity obj !! REL_ATTRS_KEY = Some (VDict rel_attrs) →
  dict_get rel_attrs "columns" VNone = VList cols →
  cols !! i = Some (VDict ref) →
  ref !! "guid" = Some (VStr g) →
  referredEntities obj !! g = Some (VDict col_entity) →
  col_entity !! ATTRS_KEY = Some (VDict col_attrs) →
  columns t !! i = Some (column_from_attributes self col_attrs) ∧
  (truthy (dict_get col_attrs "type" VNone) = false →
   col_type (column_from_attributes self col_attrs) = dict_get col_attrs "dataType" VNone).
Proof.
  intros Hd Hok Hr Hcols Hi Hg Hce Hca.
  destruct (get_table_returns _ _ _ _ _ Hok) as (obj0 & Hd0 & Ht).
  assert (obj0 = obj) as -> by congruence.
  destruct (table_of_inv _ _ _ _ Ht)
    as (attrs & rel' & cls & cols' & _ & Hr' & _ & _ & Hiter & Hfor & _).
  assert (rel' = rel_attrs) as -> by congruence.
  rewrite Hcols in Hiter.
  assert (cols' = cols) as ->.
  { unfold py_or in Hiter. destruct cols; cbn in Hiter; congruence. }
  split.
  - apply for_each_Forall2 in Hfor.
    destruct (Forall2_lookup_l _ _ _ _ _ Hfor Hi) as (col & Hcol & Hof).
    rewrite (column_of_resolved self obj ref g col_entity col_attrs Hg Hce Hca) in Hof.
    congruence.
  - intros Hty. cbn. unfold py_or. rewrite Hty. reflexivity.
Qed.

Lemma get_table_column_content_witness :
  let self := mock_proxy (mock_driver (Ok mocked_table_entity) (Raise Boom)
                            (Raise Boom) (Ok ())) in
  let col_attrs := dict [("qualifiedName", VStr "column@name");
                         ("type", VStr "Managed");
                         ("description", VStr "column description");
                         ("position", VInt 1)] in
  columns (expected_table [PII_DATA]) !! 0%nat = Some (column_from_attributes self col_attrs) ∧
  (truthy (dict_get col_attrs "type" VNone) = false →
   col_type (column_from_attributes self col_attrs) = dict_get col_attrs "dataType" VNone).
Proof.
  apply (get_table_column_content
           (mock_proxy (mock_driver (Ok mocked_table_entity) (Raise Boom) (Raise Boom) (Ok ())))
           table_id test_table_info [] mocked_table_entity (expected_table [PII_DATA])
           (dict [("db", db_entity); ("columns", VList [test_column])])
           [test_column] 0%nat
           (dict [("guid", VStr column_id);
                  ("typeName", VStr "COLUMN");
                  ("attributes",
                   VDict (dict [("qualifiedName", VStr "column@name");
                                ("type", VStr "Managed");
                                ("description", VStr "column description");
                                ("position", VInt 1)]))])
           column_id
           (dict [("guid", VStr column_id);
                  ("typeName", VStr "COLUMN");
                  ("attributes",
                   VDict (dict [("qualifiedName", VStr "column@name");
                                ("type", VStr "Managed");
                                ("description", VStr "column description");
                                ("position", VInt 1)]))]));
    vm_compute; reflexivity.
Defined.

(** The type comes from 'dataType' when the column has no 'type'. *)
Example column_of_dataType :
  column_of (mock_proxy (mock_driver (Raise Boom) (Raise Boom) (Raise Boom) (Ok ())))
    {| entity := ∅; referredEntities := dict [(column_id, column_with_dataType)] |}
    column_with_dataType
  = Ok {| col_name := VStr "column@name"; col_description := VNone;
          col_type := VStr "bigint"; sort_order := VNone |}.
Proof. vm_compute. reflexivity. Qed.

(** X6: on success the Table carries the 'description' attribute of the
    entity, its 'updateTime', exactly one owner, the 'owner' attribute (a
    User without email when the attribute is absent), and tags that are all
    of type "default". *)
Theorem get_table_scalar_fields self table_id table_info h obj t :
  drv_entity_guid (_driver self) h (VStr table_id) = Ok obj →
  (get_table self table_id table_info h).1 = Ok t →
  ∃ attrs, entity obj !! ATTRS_KEY = Some (VDict attrs) ∧
           description t = dict_get attrs "description" VNone ∧
           owners t = [ {| email := dict_get attrs "owner" VNone |} ] ∧
           last_updated_timestamp t = dict_get (entity obj) "updateTime" VNone ∧
           Forall (λ tag, tag_type tag = "default") (tags t).
Proof.
  intros Hd Hok.
  destruct (get_table_returns _ _ _ _ _ Hok) as (obj0 & Hd0 & Ht).
  assert (obj0 = obj) as -> by congruence.
  destruct (table_of_inv _ _ _ _ Ht)
    as (attrs & rel & cls & cols & Ha & _ & _ & Htags & _ & _ & Hdescr & Hown & Hts).
  exists attrs. repeat split; try assumption.
  apply for_each_Forall2 in Htags.
  induction Htags as [|c tag cs tgs Hc _ IH]; constructor; [|exact IH].
  unfold tag_of in Hc. destruct (py_get c "typeName"); [|discriminate].
  injection Hc as <-. reflexivity.
Qed.

Lemma get_table_scalar_fields_witness :
  ∃ attrs, entity mocked_table_entity !! ATTRS_KEY = Some (VDict attrs) ∧
           description (expected_table [PII_DATA]) = dict_get attrs "description" VNone ∧
           owners (expected_table [PII_DATA]) = [ {| email := dict_get attrs "owner" VNone |} ] ∧
           last_updated_timestamp (expected_table [PII_DATA])
           = dict_get (entity mocked_table_entity) "updateTime" VNone ∧
           Forall (λ tag, tag_type tag = "default") (tags (expected_table [PII_DATA])).
Proof.
  apply (get_table_scalar_fields
           (mock_proxy (mock_driver (Ok mocked_table_entity) (Raise Boom) (Raise Boom) (Ok ())))
           table_id test_table_info [] mocked_table_entity (expected_table [PII_DATA])).
  - reflexivity.
  - vm_compute. reflexivity.
Defined.

(** ** Descriptions and owner *)

Lemma set_attribute_ok obj attrs field x :
  entity obj !! ATTRS_KEY = Some (VDict attrs) →
  set_attribute obj field x = Ok (with_attribute obj attrs field x).
Proof. intros Ha. unfold set_attribute, dict_getitem. rewrite Ha. reflexivity. Qed.

Lemma get_table_description_run self table_id h obj :
  drv_entity_guid (_driver self) h (VStr table_id) = Ok obj →
  get_table_description self table_id h
  = (attrs ← dict_getitem (entity obj) ATTRS_KEY; py_get attrs "description",
     [Called (entity_guid_call (VStr table_id)) None]).
Proof.
  intros Hd. unfold get_table_description.
  rewrite (bind_ok _ _ _ _ _ (_get_table_entity_ok _ _ _ _ Hd)). reflexivity.
Qed.

Lemma get_column_description_run self column_id h obj :
  drv_entity_guid (_driver self) h (VStr column_id) = Ok obj →
  get_column_description self column_id h
  = (attrs ← dict_getitem (entity obj) ATTRS_KEY; py_get attrs "description",
     [Called (entity_guid_call (VStr column_id)) None]).
Proof.
  intros Hd. unfold get_column_description.
  rewrite (bind_ok _ _ _ _ _ (_get_column_ok _ _ _ _ Hd)). reflexivity.
Qed.

(** X7: reading a description makes the one fetch and nothing else, no
    write and no log; it returns the 'description' attribute, [None] when
    the entity has none, and raises KeyError, not BadRequest, when the
    entity has no attributes section. The same holds for a table and for a
    column. *)
Theorem description_reads self id h obj :
  drv_entity_guid (_driver self) h (VStr id) = Ok obj →
  (get_table_description self id h).2 = [Called (entity_guid_call (VStr id)) None] ∧
  (get_column_description self id h).2 = [Called (entity_guid_call (VStr id)) None] ∧
  (get_column_description self id h).1 = (get_table_description self id h).1 ∧
  match entity obj !! ATTRS_KEY with
  | Some (VDict attrs) =>
      (get_table_description self id h).1 = Ok (dict_get attrs "description" VNone)
  | Some _ => raises (get_table_description self id h).1 AttributeError
  | None => raises (get_table_description self id h).1 KeyError
  end.
Proof.
  intros Hd.
  rewrite (get_table_description_run _ _ _ _ Hd), (get_column_description_run _ _ _ _ Hd).
  cbn [fst snd]. repeat split.
  unfold dict_getitem.
  destruct (entity obj !! ATTRS_KEY) as [[]|]; cbn; try reflexivity; eexists; reflexivity.
Qed.

Lemma description_reads_witness :
  let self := mock_proxy (mock_driver (Ok mocked_table_entity) (Raise Boom)
                            (Raise Boom) (Ok ())) in
  (get_table_description self table_id []).2 = [Called (entity_guid_call (VStr table_id)) None] ∧
  (get_column_description self table_id []).2
  = [Called (entity_guid_call (VStr table_id)) None] ∧
  (get_column_description self table_id []).1 = (get_table_description self table_id []).1 ∧
  match entity mocked_table_entity !! ATTRS_KEY with
  | Some (VDict attrs) =>
      (get_table_description self table_id []).1 = Ok (dict_get attrs "description" VNone)
  | Some _ => raises (get_table_description self table_id []).1 AttributeError
  | None => raises (get_table_description self table_id []).1 KeyError
  end.
Proof.
  apply (description_reads
           (mock_proxy (mock_driver (Ok mocked_table_entity) (Raise Boom) (Raise Boom) (Ok ())))
           table_id [] mocked_table_entity).
  reflexivity.
Defined.

Example test_get_table_description :
  (get_table_description
     (mock_proxy (mock_driver (Ok mocked_table_entity) (Raise Boom) (Raise Boom) (Ok ())))
     table_id []).1
  = Ok (VStr "Dummy Description").
Proof. vm_compute. reflexivity. Qed.

Example test_get_column_description :
  (get_column_description
     (mock_proxy (mock_driver (Ok mocked_column_entity) (Raise Boom) (Raise Boom) (Ok ())))
     column_id []).1
  = Ok (VStr "column description").
Proof. vm_compute. reflexivity. Qed.

Lemma write_attribute_run self h id obj attrs field x (fetch : string → M EntityGuid)
    (attribute : option string) :
  fetch id h = (Ok obj, [Called (entity_guid_call (VStr id)) None]) →
  entity obj !! ATTRS_KEY = Some (VDict attrs) →
  (obj ← fetch id;
   obj ← lift (set_attribute obj field x);
   driver_call (update_call obj attribute) (λ h, drv_update (_driver self) h obj attribute)) h
  = (drv_update (_driver self) (h ++ [Called (entity_guid_call (VStr id)) None])
       (with_attribute obj attrs field x) attribute,
     [Called (entity_guid_call (VStr id)) None;
      Called (update_call (with_attribute obj attrs field x) attribute)
        (raised_of (drv_update (_driver self) (h ++ [Called (entity_guid_call (VStr id)) None])
                      (with_attribute obj attrs field x) attribute))]).
Proof.
  intros Hf Ha.
  eapply (bind_ok_eq _ _ h obj _ _ _ Hf).
  eapply (bind_ok_eq _ _ _ (with_attribute obj attrs field x) []).
  - unfold lift. rewrite (set_attribute_ok _ _ _ _ Ha). reflexivity.
  - rewrite app_nil_r. reflexivity.
Qed.

(** X8: [put_table_description] answers what the driver's update answers,
    after one fetch and one update that is not scoped to an attribute and
    carries the fetched entity with its description replaced. Such a write
    stores the attributes as they were fetched: what the backend held for
    the other attributes at the time of the write is overwritten. *)
Theorem put_table_description_writes_whole_entity
    self table_id description h obj attrs :
  drv_entity_guid (_driver self) h (VStr table_id) = Ok obj →
  entity obj !! ATTRS_KEY = Some (VDict attrs) →
  put_table_description self table_id description h
  = (drv_update (_driver self) (h ++ [Called (entity_guid_call (VStr table_id)) None])
       (with_attribute obj attrs "description" (VStr description)) None,
     [Called (entity_guid_call (VStr table_id)) None;
      Called (update_call (with_attribute obj attrs "description" (VStr description)) None)
        (raised_of
           (drv_update (_driver self) (h ++ [Called (entity_guid_call (VStr table_id)) None])
              (with_attribute obj attrs "description" (VStr description)) None))]) ∧
  ∀ stored,
    backend_write stored (with_attribute obj attrs "description" (VStr description)) None
    = <["description" := VStr description]> attrs.
Proof.
  intros Hd Ha. split.
  - unfold put_table_description.
    apply (write_attribute_run self h table_id obj attrs "description" (VStr description)
             (_get_table_entity self) None (_get_table_entity_ok _ _ _ _ Hd) Ha).
  - intros stored. unfold backend_write, with_attribute. cbn [entity].
    rewrite lookup_insert_eq. reflexivity.
Qed.

Lemma put_table_description_writes_whole_entity_witness :
  let self := mock_proxy (mock_driver (Ok mocked_table_entity) (Raise Boom)
                            (Raise Boom) (Ok ())) in
  put_table_description self table_id "DOESNT_MATTER" []
  = (Ok (),
     [Called (entity_guid_call (VStr table_id)) None;
      Called (update_call
                (with_attribute mocked_table_entity entity1_attributes "description"
                   (VStr "DOESNT_MATTER")) None) None]) ∧
  ∀ stored,
    backend_write stored
      (with_attribute mocked_table_entity entity1_attributes "description"
         (VStr "DOESNT_MATTER")) None
    = <["description" := VStr "DOESNT_MATTER"]> entity1_attributes.
Proof.
  apply (put_table_description_writes_whole_entity
           (mock_proxy (mock_driver (Ok mocked_table_entity) (Raise Boom) (Raise Boom) (Ok ())))
           table_id "DOESNT_MATTER" [] mocked_table_entity entity1_attributes).
  - reflexivity.
  - vm_compute. reflexivity.
Defined.

Lemma set_attribute_inv obj field x obj' :
  set_attribute obj field x = Ok obj' →
  ∃ attrs, entity obj !! ATTRS_KEY = Some (VDict attrs) ∧
           obj' = with_attribute obj attrs field x.
Proof.
  unfold set_attribute, dict_getitem.
  destruct (entity obj !! ATTRS_KEY) as [[| | | | |attrs]|]; cbn; try discriminate.
  intros [= <-]. exists attrs. split; reflexivity.
Qed.

(** The update that a fetch-modify-update sequence sends, if it sends
    one. *)
Lemma write_attribute_sent self (fetch : M EntityGuid) field x attribute h written a r :
  (∀ ev, ev ∈ (fetch h).2 → is_log ev ∨ ∃ id s, ev = Called (entity_guid_call id) s) →
  Called (update_call written a) r
    ∈ ((obj ← fetch;
        obj ← lift (set_attribute obj field x);
        driver_call (update_call obj attribute)
          (λ h, drv_update (_driver self) h obj attribute)) h).2 →
  ∃ obj attrs, (fetch h).1 = Ok obj ∧ entity obj !! ATTRS_KEY = Some (VDict attrs) ∧
               written = with_attribute obj attrs field x ∧ a = attribute.
Proof.
  intros Hfetch. rewrite bind_snd. intros [Hin|Hin]%elem_of_app.
  { apply Hfetch in Hin as [(msg & e & [=]) | (id & s & [=])]. }
  destruct ((fetch h).1) as [o|e0]; [|apply elem_of_nil in Hin as []].
  revert Hin. rewrite bind_snd. unfold lift at 1 2 3. cbn [fst snd app].
  destruct (set_attribute o field x) as [o'|e0] eqn:Hset; [|intros []%elem_of_nil].
  rewrite driver_call_snd. intros [= -> -> _]%list_elem_of_singleton.
  destruct (set_attribute_inv _ _ _ _ Hset) as (attrs & Ha & ->).
  exists o, attrs. repeat split; try reflexivity. exact Ha.
Qed.

Lemma _get_table_entity_events_kind self table_id h ev :
  ev ∈ (_get_table_entity self table_id h).2 →
  is_log ev ∨ ∃ id s, ev = Called (entity_guid_call id) s.
Proof.
  intros Hin. apply _get_table_entity_events in Hin as [[r ->] | (msg & e & ->)];
    [right; eexists _, _; reflexivity | left; eexists _, _; reflexivity].
Qed.

Lemma _get_column_events_kind self column_id h ev :
  ev ∈ (_get_column self column_id h).2 →
  is_log ev ∨ ∃ id s, ev = Called (entity_guid_call id) s.
Proof.
  intros Hin. apply _get_column_events in Hin as [[r ->] | (msg & e & ->)];
    [right; eexists _, _; reflexivity | left; eexists _, _; reflexivity].
Qed.

(** X9: a description that was written reads back: when the entity that
    [put_table_description] or [put_column_description] handed to [update]
    is what a later fetch answers, [get_table_description] and
    [get_column_description] return the description that was put. *)
Theorem description_round_trip
    self id description h written a r self' id' h' :
  Called (update_call written a) r ∈ (put_table_description self id description h).2 ∨
  Called (update_call written a) r ∈ (put_column_description self id description h).2 →
  drv_entity_guid (_driver self') h' (VStr id') = Ok written →
  (get_table_description self' id' h').1 = Ok (VStr description) ∧
  (get_column_description self' id' h').1 = Ok (VStr description).
Proof.
  intros Hsent Hd.
  assert (∃ obj attrs, written = with_attribute obj attrs "description" (VStr description))
    as (obj & attrs & ->).
  { destruct Hsent as [Hin|Hin].
    - apply write_attribute_sent in Hin as (obj & attrs & _ & _ & -> & _);
        [eauto | apply _get_table_entity_events_kind].
    - apply write_attribute_sent in Hin as (obj & attrs & _ & _ & -> & _);
        [eauto | apply _get_column_events_kind]. }
  destruct (description_reads self' id' h' _ Hd) as (_ & _ & Hsame & Hread).
  cbn [entity with_attribute] in Hread. rewrite lookup_insert_eq in Hread.
  rewrite Hsame, Hread. unfold dict_get. rewrite lookup_insert_eq. split; reflexivity.
Qed.

Lemma description_round_trip_witness :
  let written := with_attribute mocked_table_entity entity1_attributes "description"
                   (VStr "DOESNT_MATTER") in
  let self' := mock_proxy (mock_driver (Ok written) (Raise Boom) (Raise Boom) (Ok ())) in
  (get_table_description self' table_id []).1 = Ok (VStr "DOESNT_MATTER") ∧
  (get_column_description self' table_id []).1 = Ok (VStr "DOESNT_MATTER").
Proof.
  apply (description_round_trip
           (mock_proxy (mock_driver (Ok mocked_table_entity) (Raise Boom) (Raise Boom) (Ok ())))
           table_id "DOESNT_MATTER" []
           (with_attribute mocked_table_entity entity1_attributes "description"
              (VStr "DOESNT_MATTER"))
           None None).
  - left. unfold put_table_description.
    rewrite (write_attribute_run _ [] table_id mocked_table_entity entity1_attributes
               "description" (VStr "DOESNT_MATTER") (_get_table_entity _) None);
      [| apply _get_table_entity_ok; reflexivity | vm_compute; reflexivity].
    cbn [snd]. rewrite !elem_of_cons. right. left. reflexivity.
  - reflexivity.
Defined.

(** The translation of an entity whose 'owner' attribute was replaced. *)
Lemma table_of_with_owner self self' obj attrs table_info t owner :
  NAME_ATTRIBUTE self' = NAME_ATTRIBUTE self →
  entity obj !! ATTRS_KEY = Some (VDict attrs) →
  table_of self obj table_info = Ok t →
  table_of self' (with_attribute obj attrs "owner" (VStr owner)) table_info
  = Ok (with_owner t owner).
Proof.
  intros Hn Ha Ht.
  destruct (table_of_table_info _ _ _ _ Ht) as (H1 & H2 & H3 & H4).
  destruct (table_of_inv _ _ _ _ Ht)
    as (attrs' & rel & cls & cols & Ha' & Hr & Hcls & Htags & Hcols & Hfor
        & Hdescr & Hown & Hts).
  assert (attrs' = attrs) as -> by congruence.
  unfold table_of, dict_getitem, dict_get, ATTRS_KEY, REL_ATTRS_KEY in *.
  cbn [entity with_attribute].
  rewrite lookup_insert_eq, !lookup_insert_ne by discriminate.
  rewrite Hr. cbn [mbind result_bind]. rewrite Hcls. cbn [mbind result_bind].
  rewrite Htags. cbn [mbind result_bind py_get]. unfold dict_get. rewrite Hcols.
  cbn [mbind result_bind].
  rewrite (for_each_ext (column_of self' _) (column_of self obj) cols)
    by (intros c; apply column_of_ext; [exact Hn | reflexivity]).
  rewrite Hfor, H1, H2, H3, H4. cbn [mbind result_bind].
  rewrite lookup_insert_eq, lookup_insert_ne by discriminate.
  unfold with_owner. rewrite Hdescr, Hts. reflexivity.
Qed.

(** X10: [add_owner] sends one update, not scoped to an attribute, and the
    entity it sends has the new owner in place of the former one: read
    through [get_table], it gives the Table that the fetched entity gave,
    with the new owner as its only owner. *)
Theorem add_owner_replaces_the_owner
    self table_id owner h table_info t written a r self' table_id' h' :
  (get_table self table_id table_info h).1 = Ok t →
  Called (update_call written a) r ∈ (add_owner self table_id owner h).2 →
  NAME_ATTRIBUTE self' = NAME_ATTRIBUTE self →
  drv_entity_guid (_driver self') h' (VStr table_id') = Ok written →
  a = None ∧
  List.filter is_driver_call (add_owner self table_id owner h).2
  = [Called (entity_guid_call (VStr table_id)) None; Called (update_call written None) r] ∧
  (get_table self' table_id' table_info h').1 = Ok (with_owner t owner).
Proof.
  intros Hok Hsent Hn Hd'.
  destruct (get_table_returns _ _ _ _ _ Hok) as (obj & Hd & Ht).
  pose proof Hsent as Hsent'.
  unfold add_owner in Hsent'.
  apply write_attribute_sent in Hsent' as (obj0 & attrs & Hf & Ha & -> & ->);
    [|apply _get_table_entity_events_kind].
  rewrite (_get_table_entity_ok _ _ _ _ Hd) in Hf. injection Hf as <-.
  split; [reflexivity|].
  assert (add_owner self table_id owner h
          = (drv_update (_driver self) (h ++ [Called (entity_guid_call (VStr table_id)) None])
               (with_attribute obj attrs "owner" (VStr owner)) None,
             [Called (entity_guid_call (VStr table_id)) None;
              Called (update_call (with_attribute obj attrs "owner" (VStr owner)) None)
                (raised_of
                   (drv_update (_driver self)
                      (h ++ [Called (entity_guid_call (VStr table_id)) None])
                      (with_attribute obj attrs "owner" (VStr owner)) None))])) as Hrun.
  { unfold add_owner.
    apply (write_attribute_run self h table_id obj attrs "owner" (VStr owner)
             (_get_table_entity self) None (_get_table_entity_ok _ _ _ _ Hd) Ha). }
  split.
  - rewrite Hrun in Hsent |- *. cbn [snd] in Hsent |- *.
    rewrite !elem_of_cons in Hsent.
    destruct Hsent as [[=] | [[= <-] | []%elem_of_nil]]. reflexivity.
  - rewrite (get_table_ok self' table_id' table_info h' _ Hd' (with_owner t owner));
      [reflexivity|].
    exact (table_of_with_owner self self' obj attrs table_info t owner Hn Ha Ht).
Qed.

Lemma add_owner_replaces_the_owner_witness :
  let self := mock_proxy (mock_driver (Ok mocked_table_entity) (Raise Boom)
                            (Raise Boom) (Ok ())) in
  let written := with_attribute mocked_table_entity entity1_attributes "owner" (VStr "OWNER") in
  let self' := mock_proxy (mock_driver (Ok written) (Raise Boom) (Raise Boom) (Ok ())) in
  @None string = None ∧
  List.filter is_driver_call (add_owner self table_id "OWNER" []).2
  = [Called (entity_guid_call (VStr table_id)) None; Called (update_call written None) None] ∧
  (get_table self' table_id test_table_info []).1
  = Ok (with_owner (expected_table [PII_DATA]) "OWNER").
Proof.
  apply (add_owner_replaces_the_owner
           (mock_proxy (mock_driver (Ok mocked_table_entity) (Raise Boom) (Raise Boom) (Ok ())))
           table_id "OWNER" [] test_table_info (expected_table [PII_DATA])
           (with_attribute mocked_table_entity entity1_attributes "owner" (VStr "OWNER"))
           None None).
  - vm_compute. reflexivity.
  - unfold add_owner.
    rewrite (write_attribute_run _ [] table_id mocked_table_entity entity1_attributes
               "owner" (VStr "OWNER") (_get_table_entity _) None);
      [| apply _get_table_entity_ok; reflexivity | vm_compute; reflexivity].
    cbn [snd]. rewrite !elem_of_cons. right. left. reflexivity.
  - reflexivity.
  - reflexivity.
Defined.

(** ** Tags *)

Lemma run_eq {A} (p : result A * list event) r evs : p.1 = r → p.2 = evs → p = (r, evs).
Proof. destruct p. cbn. congruence. Qed.

Lemma lift_ok {A} (r : result A) a h : r = Ok a → lift r h = (Ok a, []).
Proof. intros ->. reflexivity. Qed.

Lemma lift_raise {A} (r : result A) e h : r = Raise e → lift r h = (Raise e, []).
Proof. intros ->. reflexivity. Qed.

Lemma driver_call_ok {A} c (answer : list event → result A) h a :
  answer h = Ok a → driver_call c answer h = (Ok a, [Called c None]).
Proof. intros Ha. unfold driver_call. rewrite Ha. reflexivity. Qed.

Lemma driver_call_raise {A} c (answer : list event → result A) h e :
  answer h = Raise e → driver_call c answer h = (Raise e, [Called c (Some e)]).
Proof. intros Ha. unfold driver_call. rewrite Ha. reflexivity. Qed.

Lemma dict_getitem_Some d k v : d !! k = Some v → dict_getitem d k = Ok v.
Proof. intros H. unfold dict_getitem. rewrite H. reflexivity. Qed.

Lemma dict_getitem_None d k : d !! k = None → dict_getitem d k = Raise (Exn KeyError k).
Proof. intros H. unfold dict_getitem. rewrite H. reflexivity. Qed.

Example test_add_tag :
  (add_tag (mock_proxy (mock_driver (Ok mocked_table_entity) (Raise Boom) (Raise Boom) (Ok ())))
     table_id "TAG" []).2
  = [Called (entity_guid_call (VStr table_id)) None;
     Called (entity_bulk_classification_create_call (entity_bulk_tag "TAG" (VStr table_id)))
       None].
Proof. vm_compute. reflexivity. Qed.

(** X11: once the table entity is fetched, [add_tag] makes exactly one
    bulk classification create, for the classification of the given name
    and for the one guid found in the 'guid' entry of the entity, and
    answers what that call answers; on an entity without 'guid' it raises
    KeyError and creates nothing. *)
Theorem add_tag_one_bulk_create self table_id tag h obj :
  drv_entity_guid (_driver self) h (VStr table_id) = Ok obj →
  match entity obj !! "guid" with
  | Some g =>
      add_tag self table_id tag h
      = (drv_entity_bulk_classification_create (_driver self)
           (h ++ [Called (entity_guid_call (VStr table_id)) None]) (entity_bulk_tag tag g),
         [Called (entity_guid_call (VStr table_id)) None;
          Called (entity_bulk_classification_create_call (entity_bulk_tag tag g))
            (raised_of
               (drv_entity_bulk_classification_create (_driver self)
                  (h ++ [Called (entity_guid_call (VStr table_id)) None])
                  (entity_bulk_tag tag g)))])
  | None =>
      add_tag self table_id tag h
      = (Raise (Exn KeyError "guid"), [Called (entity_guid_call (VStr table_id)) None])
  end.
Proof.
  intros Hd. unfold add_tag.
  destruct (entity obj !! "guid") as [g|] eqn:Hg; apply run_eq.
  - rewrite bind_fst, (_get_table_entity_ok _ _ _ _ Hd). cbn [fst snd].
    rewrite bind_fst. unfold lift at 1 2, dict_getitem. rewrite Hg. cbn [fst snd].
    rewrite app_nil_r. reflexivity.
  - rewrite bind_snd, (_get_table_entity_ok _ _ _ _ Hd). cbn [fst snd].
    rewrite bind_snd. unfold lift at 1 2 3, dict_getitem. rewrite Hg. cbn [fst snd].
    rewrite app_nil_r. reflexivity.
  - rewrite bind_fst, (_get_table_entity_ok _ _ _ _ Hd). cbn [fst snd].
    rewrite bind_fst. unfold lift at 1 2, dict_getitem. rewrite Hg. reflexivity.
  - rewrite bind_snd, (_get_table_entity_ok _ _ _ _ Hd). cbn [fst snd].
    rewrite bind_snd. unfold lift at 1 2 3, dict_getitem. rewrite Hg. reflexivity.
Qed.

Lemma add_tag_one_bulk_create_witness :
  let self := mock_proxy (mock_driver (Ok mocked_table_entity) (Raise Boom)
                            (Raise Boom) (Ok ())) in
  match entity mocked_table_entity !! "guid" with
  | Some g =>
      add_tag self table_id "TAG" []
      = (drv_entity_bulk_classification_create (_driver self)
           ([] ++ [Called (entity_guid_call (VStr table_id)) None]) (entity_bulk_tag "TAG" g),
         [Called (entity_guid_call (VStr table_id)) None;
          Called (entity_bulk_classification_create_call (entity_bulk_tag "TAG" g))
            (raised_of
               (drv_entity_bulk_classification_create (_driver self)
                  ([] ++ [Called (entity_guid_call (VStr table_id)) None])
                  (entity_bulk_tag "TAG" g)))])
  | None =>
      add_tag self table_id "TAG" []
      = (Raise (Exn KeyError "guid"), [Called (entity_guid_call (VStr table_id)) None])
  end.
Proof.
  apply (add_tag_one_bulk_create
           (mock_proxy (mock_driver (Ok mocked_table_entity) (Raise Boom) (Raise Boom) (Ok ())))
           table_id "TAG" [] mocked_table_entity).
  reflexivity.
Defined.

(** X12: what [delete_tag] does once the table entity is fetched. It
    fetches the entity again, by the 'guid' entry of the first answer, and
    calls the classification delete once, on the second answer. When the
    entity has no 'guid' or the second fetch raises, no delete is called:
    the tag stays, the failure goes to the log and the caller is not
    told. *)
Theorem delete_tag_calls self table_id tag h obj :
  drv_entity_guid (_driver self) h (VStr table_id) = Ok obj →
  let fetched := Called (entity_guid_call (VStr table_id)) None in
  match entity obj !! "guid" with
  | None => ∃ msg ex, (delete_tag self table_id tag h).2 = [fetched; Logged msg ex]
  | Some g =>
      match drv_entity_guid (_driver self) (h ++ [fetched]) g with
      | Raise e =>
          ∃ msg, (delete_tag self table_id tag h).2
                 = [fetched; Called (entity_guid_call g) (Some e); Logged msg e]
      | Ok guid_entity =>
          List.filter is_driver_call (delete_tag self table_id tag h).2
          = [fetched; Called (entity_guid_call g) None;
             Called (classifications_delete_call guid_entity tag)
               (raised_of
                  (drv_classifications_delete (_driver self)
                     (h ++ [fetched; Called (entity_guid_call g) None]) guid_entity tag))]
      end
  end.
Proof.
  intros Hd fetched. unfold delete_tag, try_except.
  rewrite (bind_ok _ _ _ _ _ (_get_table_entity_ok _ _ _ _ Hd)). fold fetched.
  destruct (entity obj !! "guid") as [g|] eqn:Hguid.
  - rewrite (bind_ok _ _ (h ++ [fetched]) g []
               (lift_ok _ _ _ (dict_getitem_Some _ _ _ Hguid))).
    rewrite !app_nil_r.
    destruct (drv_entity_guid (_driver self) (h ++ [fetched]) g) as [guid_entity|e] eqn:Hg.
    + rewrite (bind_ok _ _ _ _ _ (driver_call_ok _ _ _ _ Hg)).
      rewrite <- app_assoc. cbn [app fst snd]. unfold driver_call.
      destruct (drv_classifications_delete _ _ guid_entity tag) as [[]|e]; reflexivity.
    + rewrite (bind_raise _ _ _ _ _ (driver_call_raise _ _ _ _ Hg)).
      cbn. eexists. reflexivity.
  - rewrite (bind_raise _ _ (h ++ [fetched]) (Exn KeyError "guid") []
               (lift_raise _ _ _ (dict_getitem_None _ _ Hguid))).
    cbn. eexists _, _. reflexivity.
Qed.

Lemma delete_tag_calls_witness :
  let self := mock_proxy quirky_driver in
  let fetched := Called (entity_guid_call (VStr table_id)) None in
  List.filter is_driver_call (delete_tag self table_id "TAG" []).2
  = [fetched; Called (entity_guid_call (VStr table_id)) None;
     Called (classifications_delete_call mocked_table_entity "TAG") (Some Boom)].
Proof.
  apply (delete_tag_calls (mock_proxy quirky_driver) table_id "TAG" [] mocked_table_entity).
  reflexivity.
Defined.

Lemma mjoin_fmap_fmap {A B C} (f : B → C) (g : A → list B) (l : list A) :
  mjoin ((λ x, f <$> g x) <$> l) = f <$> mjoin (g <$> l).
Proof.
  induction l as [|x l IH]; [reflexivity|].
  rewrite !fmap_cons. cbn [mjoin list_join]. rewrite fmap_app. f_equal. exact IH.
Qed.

(** X13: [get_tags] makes one TagDetail per classification definition, in
    the order of the type definitions and of their classifications, each
    with the name of its definition and a count of 0; an exception of the
    driver leaves [get_tags] as it is, without a log record. *)
Theorem get_tags_one_per_classification self h :
  match drv_typedefs (_driver self) h with
  | Ok typedefs =>
      ∃ tags, get_tags self h = (Ok tags, [Called typedefs_call None]) ∧
              td_tag_name <$> tags = cd_name <$> mjoin (classificationDefs <$> typedefs) ∧
              Forall (λ tag, tag_count tag = 0%Z) tags
  | Raise e => get_tags self h = (Raise e, [Called typedefs_call (Some e)])
  end.
Proof.
  unfold get_tags, driver_call.
  destruct (drv_typedefs (_driver self) h) as [typedefs|e] eqn:Hd.
  - erewrite bind_ok; [|rewrite Hd; reflexivity]. cbn [fst snd app].
    eexists. split; [reflexivity|].
    rewrite (mjoin_fmap_fmap
               (λ classification,
                  {| td_tag_name := cd_name classification; tag_count := 0 |})
               classificationDefs typedefs).
    split.
    + rewrite <- list_fmap_compose. reflexivity.
    + apply Forall_fmap, Forall_true. reflexivity.
  - erewrite bind_raise; [|rewrite Hd; reflexivity]. reflexivity.
Qed.

Example test_get_tags :
  (get_tags
     (mock_proxy
        {| drv_entity_guid := λ _ _, Raise Boom;
           drv_entity_bulk := λ _ _, Raise Boom;
           drv_search_basic := λ _ _, Raise Boom;
           drv_search_basic_create := λ _ _, Raise Boom;
           drv_update := λ _ _ _, Raise Boom;
           drv_entity_bulk_classification_create := λ _ _, Raise Boom;
           drv_classifications_delete := λ _ _ _, Raise Boom;
           drv_typedefs :=
             λ _, Ok [ {| classificationDefs :=
                            [ {| cd_name := VStr "DUMMY_CLASSIFICATION" |} ] |} ] |})
     []).1
  = Ok [ {| td_tag_name := VStr "DUMMY_CLASSIFICATION"; tag_count := 0 |} ].
Proof. vm_compute. reflexivity. Qed.

(** X14: [_get_ids_from_basic_search] returns the guids of the entities of
    all the pages of the search, page after page: a guid is returned
    exactly when an entity of some page has it, and as many ids are
    returned as there are entities. *)
Theorem get_ids_from_basic_search_all_pages self params h pages :
  drv_search_basic (_driver self) h params = Ok pages →
  ∃ ids, (_get_ids_from_basic_search self params h).1 = Ok ids ∧
         ids = guid <$> mjoin (entities <$> pages) ∧
         length ids = sum_list (length ∘ entities <$> pages) ∧
         ∀ g, g ∈ ids ↔ ∃ page ent, page ∈ pages ∧ ent ∈ entities page ∧ guid ent = g.
Proof.
  intros Hd. unfold _get_ids_from_basic_search, driver_call.
  erewrite bind_ok; [|rewrite Hd; reflexivity]. cbn [fst snd].
  eexists. split; [reflexivity|].
  rewrite (mjoin_fmap_fmap guid entities pages).
  split; [reflexivity|]. split.
  - rewrite length_fmap. clear Hd.
    induction pages as [|p pages IH]; [reflexivity|].
    rewrite !fmap_cons. cbn [mjoin list_join sum_list sum_list_with].
    rewrite length_app. f_equal. exact IH.
  - intros g. rewrite list_elem_of_fmap. split.
    + intros (ent & -> & Hin). apply list_elem_of_join in Hin as (l & Hent & Hl).
      apply list_elem_of_fmap in Hl as (page & -> & Hpage). eauto.
    + intros (page & ent & Hpage & Hent & <-). exists ent. split; [reflexivity|].
      apply list_elem_of_join. exists (entities page). split; [exact Hent|].
      apply list_elem_of_fmap. eauto.
Qed.

Lemma get_ids_from_basic_search_witness :
  let self := mock_proxy (mock_driver (Raise Boom) (Ok basic_search_collection)
                            (Raise Boom) (Ok ())) in
  ∃ ids, (_get_ids_from_basic_search self ∅ []).1 = Ok ids ∧
         ids = guid <$> mjoin (entities <$> [basic_search_collection]) ∧
         length ids = sum_list (length ∘ entities <$> [basic_search_collection]) ∧
         ∀ g, g ∈ ids ↔ ∃ page ent, page ∈ [basic_search_collection] ∧
                                    ent ∈ entities page ∧ guid ent = g.
Proof.
  apply (get_ids_from_basic_search_all_pages
           (mock_proxy (mock_driver (Raise Boom) (Ok basic_search_collection)
                          (Raise Boom) (Ok ())))
           ∅ [] [basic_search_collection]).
  reflexivity.
Defined.

Example test_get_ids_from_basic_search :
  (_get_ids_from_basic_search
     (mock_proxy (mock_driver (Raise Boom) (Ok basic_search_collection) (Raise Boom) (Ok ())))
     ∅ []).1
  = Ok ["69cdc0de-1efa-428f-9c6e-5aa650c24138"; "eeaf8d38-e986-46fb-a062-88a09c1b728d"].
Proof. vm_compute. reflexivity. Qed.

(** ** Further properties of get_popular_tables *)

(** X15: in the dictionary [_get_rel_attributes_dict] returns, a guid
    leads to the last entity of the last batch that has this guid: an
    entity delivered twice is kept once, in its later version, and a guid
    of no entity of the last batch leads to nothing. *)
Theorem get_rel_attributes_dict_later_entity_wins
    self ents attribute h ids batches last_batch :
  rel_attribute_ids attribute ents = Ok ids →
  drv_entity_bulk (_driver self) h ids = Ok (batches ++ [last_batch]) →
  ∃ d, _get_rel_attributes_dict self ents attribute h
       = (Ok d, [Called (entity_bulk_call ids) None]) ∧
       ∀ g, d !! g = last (filter (λ e, guid e = g) (entities last_batch)).
Proof.
  intros Hids Hb.
  rewrite (_get_rel_attributes_dict_run _ _ _ _ _ Hids), Hb. cbn [mbind result_bind raised_of].
  eexists. split; [reflexivity|].
  intros g. rewrite entities_dict_of_last. apply dict_by_guid_last.
Qed.

Lemma get_rel_attributes_dict_later_entity_wins_witness :
  let self := mock_proxy (mock_driver (Raise Boom) (Raise Boom)
                            (Ok ([] ++ [ {| entities := [other_db_entity; bulk_db_entity;
                                                         other_db_entity] |} ]))
                            (Ok ())) in
  ∃ d, _get_rel_attributes_dict self (entities basic_search_collection) "db" []
       = (Ok d, [Called (entity_bulk_call [VStr db_guid; VStr db_guid]) None]) ∧
       ∀ g, d !! g = last (filter (λ e, guid e = g)
                             [other_db_entity; bulk_db_entity; other_db_entity]).
Proof.
  apply (get_rel_attributes_dict_later_entity_wins
           (mock_proxy (mock_driver (Raise Boom) (Raise Boom)
                          (Ok ([] ++ [ {| entities := [other_db_entity; bulk_db_entity;
                                                       other_db_entity] |} ]))
                          (Ok ())))
           (entities basic_search_collection) "db" [] [VStr db_guid; VStr db_guid] []
           {| entities := [other_db_entity; bulk_db_entity; other_db_entity] |}).
  - vm_compute. reflexivity.
  - reflexivity.
Defined.

Example test_get_rel_attributes_dict :
  (_get_rel_attributes_dict
     (mock_proxy (mock_driver (Raise Boom) (Raise Boom)
                    (Ok [ {| entities := [bulk_db_entity] |} ]) (Ok ())))
     (entities basic_search_collection) "db" []).1
  = Ok {[ db_guid := bulk_db_entity ]}.
Proof. vm_compute. reflexivity. Qed.

(** X16: when the search raises, [get_popular_tables] makes no other
    driver call. A BadRequest of the search is logged and replaced by a
    BadRequest with the message of the proxy; an exception of another
    class leaves [get_popular_tables] as it is, without a log record. *)
Theorem get_popular_tables_search_failure self num_entries h e :
  drv_search_basic_create (_driver self) h (popular_tables_params self) = Raise e →
  List.filter is_driver_call (get_popular_tables self num_entries h).2
  = [Called (search_basic_create_call (popular_tables_params self)) (Some e)] ∧
  (exn_cls e = BadRequest →
   (get_popular_tables self num_entries h).1
   = Raise (Exn BadRequest "Unable to fetch popular tables. Please check your configurations.") ∧
   ∃ msg, (get_popular_tables self num_entries h).2
          = [Called (search_basic_create_call (popular_tables_params self)) (Some e);
             Logged msg e]) ∧
  (exn_cls e ≠ BadRequest →
   get_popular_tables self num_entries h
   = (Raise e, [Called (search_basic_create_call (popular_tables_params self)) (Some e)])).
Proof.
  intros Hd.
  unfold get_popular_tables.
  destruct (except_BadRequest (exn_cls e)) eqn:Hc.
  - assert (exn_cls e = BadRequest) as Hcls by (destruct (exn_cls e); try discriminate; reflexivity).
    erewrite bind_raise.
    2:{ unfold try_except. rewrite (bind_raise _ _ _ _ _ (driver_call_raise _ _ _ _ Hd)).
        rewrite Hc. reflexivity. }
    cbn. split; [reflexivity|]. split; [|intros Hne; contradiction].
    intros _. split; [reflexivity | eexists; reflexivity].
  - assert (exn_cls e ≠ BadRequest) as Hcls by (intros Heq; rewrite Heq in Hc; discriminate).
    erewrite bind_raise.
    2:{ unfold try_except. rewrite (bind_raise _ _ _ _ _ (driver_call_raise _ _ _ _ Hd)).
        rewrite Hc. reflexivity. }
    cbn. split; [reflexivity|]. split; [intros Heq; contradiction | reflexivity].
Qed.

Lemma get_popular_tables_search_failure_witness :
  let self := mock_proxy rejected_search in
  let e := Exn BadRequest "Boom!" in
  List.filter is_driver_call (get_popular_tables self 2 []).2
  = [Called (search_basic_create_call (popular_tables_params self)) (Some e)] ∧
  (exn_cls e = BadRequest →
   (get_popular_tables self 2 []).1
   = Raise (Exn BadRequest "Unable to fetch popular tables. Please check your configurations.") ∧
   ∃ msg, (get_popular_tables self 2 []).2
          = [Called (search_basic_create_call (popular_tables_params self)) (Some e);
             Logged msg e]) ∧
  (exn_cls e ≠ BadRequest →
   get_popular_tables self 2 []
   = (Raise e, [Called (search_basic_create_call (popular_tables_params self)) (Some e)])).
Proof.
  apply (get_popular_tables_search_failure (mock_proxy rejected_search) 2 []
           (Exn BadRequest "Boom!")).
  reflexivity.
Defined.

(** A search that fails otherwise than by a BadRequest is not wrapped. *)
Example get_popular_tables_search_down :
  get_popular_tables
    (mock_proxy (mock_driver (Raise Boom) (Raise Boom) (Raise Boom) (Ok ()))) 2 []
  = (Raise Boom,
     [Called (search_basic_create_call
                (popular_tables_params
                   (mock_proxy (mock_driver (Raise Boom) (Raise Boom) (Raise Boom) (Ok ())))))
        (Some Boom)]).
Proof. vm_compute. reflexivity. Qed.

(** X17: when the bulk fetch raises, [get_popular_tables] raises the same
    exception and returns no table, also for the results that refer to no
    database: the empty cluster and schema are for a database the fetch did
    not deliver, not for a fetch that failed. *)
Theorem get_popular_tables_bulk_failure self num_entries h c e :
  drv_search_basic_create (_driver self) h (popular_tables_params self) = Ok c →
  Forall (db_reference_ok self) (entities c) →
  drv_entity_bulk (_driver self) (h ++ [searched self])
    (referenced_db_ids self (entities c)) = Raise e →
  get_popular_tables self num_entries h
  = (Raise e,
     [searched self;
      Called (entity_bulk_call (referenced_db_ids self (entities c))) (Some e)]).
Proof.
  intros Hs Hshape Hb. apply run_eq.
  - unfold get_popular_tables.
    rewrite (bind_ok _ _ _ _ _ (search_ok _ _ _ Hs)). cbn [fst].
    pose proof (_get_rel_attributes_dict_run self (entities c) (DB_ATTRIBUTE self)
                  (h ++ [searched self]) _ (rel_attribute_ids_ok _ _ Hshape)) as Hrun.
    rewrite Hb in Hrun. cbn [mbind result_bind raised_of] in Hrun.
    rewrite (bind_raise _ _ _ _ _ Hrun). reflexivity.
  - rewrite (get_popular_tables_events _ _ _ _ Hs Hshape), Hb. reflexivity.
Qed.

Lemma get_popular_tables_bulk_failure_witness :
  let self := mock_proxy (mock_driver (Raise Boom) (Ok search_collection_without_db)
                            (Raise Boom) (Ok ())) in
  get_popular_tables self 2 []
  = (Raise Boom,
     [searched self;
      Called (entity_bulk_call
                (referenced_db_ids self (entities search_collection_without_db)))
        (Some Boom)]).
Proof.
  apply (get_popular_tables_bulk_failure
           (mock_proxy (mock_driver (Raise Boom) (Ok search_collection_without_db)
                          (Raise Boom) (Ok ())))
           2 [] search_collection_without_db Boom).
  - reflexivity.
  - repeat constructor; try (eexists; vm_compute; reflexivity).
  - reflexivity.
Defined.

Lemma rel_attribute_ids_broken self ents :
  Exists (db_reference_broken self) ents →
  raises (rel_attribute_ids (DB_ATTRIBUTE self) ents) AttributeError.
Proof.
  induction ents as [|ent ents IH]; intros Hex; [inversion Hex|].
  cbn [rel_attribute_ids].
  destruct (py_get (dict_get (attributes ent) (DB_ATTRIBUTE self) (VDict ∅)) "guid")
    as [rel_id|e] eqn:Hget; cbn [mbind result_bind].
  - apply Exists_cons in Hex as [(v & Hv & Hnot) | Hex].
    + unfold dict_get in Hget. rewrite Hv in Hget. cbn in Hget.
      destruct v; cbn in Hget; try discriminate. destruct (Hnot d eq_refl).
    + destruct (IH Hex) as [msg ->]. eexists. reflexivity.
  - exists (exn_msg e). pose proof (py_get_error _ _ _ Hget) as Hc.
    destruct e as [c m]. cbn in Hc |- *. rewrite Hc. reflexivity.
Qed.

(** X18: a search result whose DB_ATTRIBUTE is present but is not an
    object (a null, a string, a list) makes [get_popular_tables] raise
    AttributeError for the whole listing, before any bulk fetch. *)
Theorem get_popular_tables_broken_reference self num_entries h c :
  drv_search_basic_create (_driver self) h (popular_tables_params self) = Ok c →
  Exists (db_reference_broken self) (entities c) →
  raises (get_popular_tables self num_entries h).1 AttributeError ∧
  (get_popular_tables self num_entries h).2 = [searched self].
Proof.
  intros Hs Hex.
  destruct (rel_attribute_ids_broken self (entities c) Hex) as [msg Hids].
  assert (_get_rel_attributes_dict self (entities c) (DB_ATTRIBUTE self) (h ++ [searched self])
          = (Raise (Exn AttributeError msg), [])) as Hrun.
  { unfold _get_rel_attributes_dict. apply bind_raise, lift_raise, Hids. }
  unfold get_popular_tables.
  rewrite (bind_ok _ _ _ _ _ (search_ok _ _ _ Hs)).
  rewrite (bind_raise _ _ _ _ _ Hrun). cbn [fst snd].
  split; [eexists; reflexivity | reflexivity].
Qed.

Lemma get_popular_tables_broken_reference_witness :
  let self := mock_proxy
                (mock_driver (Raise Boom)
                   (Ok {| entities := [ {| guid := table_id; typeName := VStr "TEST_ENTITY";
                                           attributes := dict [("db", VNone)] |} ] |})
                   (Ok []) (Ok ())) in
  raises (get_popular_tables self 2 []).1 AttributeError ∧
  (get_popular_tables self 2 []).2 = [searched self].
Proof.
  apply (get_popular_tables_broken_reference
           (mock_proxy
              (mock_driver (Raise Boom)
                 (Ok {| entities := [ {| guid := table_id; typeName := VStr "TEST_ENTITY";
                                         attributes := dict [("db", VNone)] |} ] |})
                 (Ok []) (Ok ())))
           2 []
           {| entities := [ {| guid := table_id; typeName := VStr "TEST_ENTITY";
                               attributes := dict [("db", VNone)] |} ] |}).
  - reflexivity.
  - apply Exists_cons_hd. exists VNone. split; [vm_compute; reflexivity | discriminate].
Defined.

(** ** The column description resource *)

(** X19: [ColumnDescriptionAPI.get] never raises. It answers 404 with the
    message naming the column when the fetch raised, 200 with the
    description (null when the column has none) when the entity has an
    attributes section that is an object, and 500 in every other case. *)
Theorem column_api_get_statuses client column_id h :
  match drv_entity_guid (_driver client) h (VStr column_id) with
  | Raise _ =>
      (ColumnDescriptionAPI.get client column_id h).1
      = Ok (ColumnDescriptionAPI.does_not_exist column_id, NOT_FOUND)
  | Ok obj =>
      match entity obj !! ATTRS_KEY with
      | Some (VDict attrs) =>
          (ColumnDescriptionAPI.get client column_id h).1
          = Ok (VDict (<["description" := dict_get attrs "description" VNone]> ∅), OK)
      | _ =>
          (ColumnDescriptionAPI.get client column_id h).1
          = Ok (VDict (<["message" := VStr "Internal server error!"]> ∅),
                INTERNAL_SERVER_ERROR)
      end
  end.
Proof.
  unfold ColumnDescriptionAPI.get. rewrite try_except_fst, bind_fst.
  destruct (drv_entity_guid (_driver client) h (VStr column_id)) as [obj|e] eqn:Hd.
  - rewrite (get_column_description_run _ _ _ _ Hd). cbn [fst snd]. unfold dict_getitem.
    destruct (entity obj !! ATTRS_KEY) as [[]|]; reflexivity.
  - unfold get_column_description.
    rewrite (bind_raise _ _ _ _ _ (_get_column_raise _ _ _ _ Hd)). reflexivity.
Qed.

(** X20: [ColumnDescriptionAPI.put] answers 404, without any update, when
    the fetch raised, and 200 with no body when the scoped update
    returned; an exception of the update that is not a NotFoundException
    is not handled, it leaves [put]. *)
Theorem column_api_put_statuses client column_id description_val h :
  match drv_entity_guid (_driver client) h (VStr column_id) with
  | Raise e =>
      ∃ msg, ColumnDescriptionAPI.put client column_id description_val h
             = (Ok (ColumnDescriptionAPI.does_not_exist column_id, NOT_FOUND),
                [Called (entity_guid_call (VStr column_id)) (Some e); Logged msg e])
  | Ok obj =>
      ∀ attrs, entity obj !! ATTRS_KEY = Some (VDict attrs) →
        match drv_update (_driver client) (h ++ [Called (entity_guid_call (VStr column_id)) None])
                (described obj attrs description_val) (Some "description") with
        | Ok _ => (ColumnDescriptionAPI.put client column_id description_val h).1 = Ok (VNone, OK)
        | Raise e =>
            exn_cls e ≠ NotFoundException →
            (ColumnDescriptionAPI.put client column_id description_val h).1 = Raise e
        end
  end.
Proof.
  unfold ColumnDescriptionAPI.put.
  destruct (drv_entity_guid (_driver client) h (VStr column_id)) as [obj|e] eqn:Hd.
  - intros attrs Ha. rewrite try_except_fst, bind_fst.
    unfold put_column_description.
    rewrite (write_attribute_run client h column_id obj attrs "description"
               (VStr description_val) (_get_column client) (Some "description")
               (_get_column_ok _ _ _ _ Hd) Ha).
    cbn [fst snd]. change (with_attribute obj attrs "description" (VStr description_val))
      with (described obj attrs description_val).
    destruct (drv_update _ _ _ _) as [[]|e]; [reflexivity|].
    intros Hne. destruct (exn_cls e); try reflexivity. contradiction.
  - unfold try_except, put_column_description.
    rewrite (bind_raise _ _ _ _ _ (bind_raise _ _ _ _ _ (_get_column_raise _ _ _ _ Hd))).
    cbn. eexists. reflexivity.
Qed.

Example test_column_api_get :
  (ColumnDescriptionAPI.get
     (mock_proxy (mock_driver (Ok mocked_column_entity) (Raise Boom) (Raise Boom) (Ok ())))
     column_id []).1
  = Ok (VDict (dict [("description", VStr "column description")]), OK).
Proof. vm_compute. reflexivity. Qed.

(** A failing update is a 500 of the framework, not a response of [put]. *)
Example column_api_put_update_fails :
  (ColumnDescriptionAPI.put
     (mock_proxy (mock_driver (Ok mocked_column_entity) (Raise Boom) (Raise Boom) (Raise Boom)))
     column_id "DOESNT_MATTER" []).1
  = Raise Boom.
Proof. vm_compute. reflexivity. Qed.

Lemma column_api_put_statuses_witness :
  (ColumnDescriptionAPI.put
     (mock_proxy (mock_driver (Ok mocked_column_entity) (Raise Boom) (Raise Boom) (Ok ())))
     column_id "DOESNT_MATTER" []).1
  = Ok (VNone, OK).
Proof.
  apply (column_api_put_statuses
           (mock_proxy (mock_driver (Ok mocked_column_entity) (Raise Boom) (Raise Boom) (Ok ())))
           column_id "DOESNT_MATTER" []
           (dict [("qualifiedName", VStr "column@name");
                  ("type", VStr "Managed");
                  ("description", VStr "column description");
                  ("position", VInt 1)])).
  vm_compute. reflexivity.
Defined.
